(** * The client-side authentication state machine of the auth-gateway
      JavaScript SDK

    A shallow embedding of [javascript-sdk/src]: the event emitter
    ([events.ts]), the API client ([api-client.ts]), the vanilla client
    ([vanilla-auth.ts]) and the React provider ([auth-context.tsx]).

    Conventions of the embedding.
    - A JavaScript function object passed as a listener is a [Callback]: a
      reference, compared with [=] where the source compares with [!==].
      What a callback does when it is called is given by a parameter
      [throws]; every call is recorded in a log.
    - Code that can throw runs in a state-and-exception monad [M]; [try],
      [catch] and [finally] are combinators with the JavaScript semantics.
    - A pending promise is the completion the [await] will observe.
    - The browser ([localStorage], [window.location], [history]) and the
      backend are the environment: the browser is a record, the backend a
      parameter giving the response to every request, and the way the
      browser resolves (or refuses) the URL given to
      [history.replaceState] a parameter too. *)

From stdpp Require Import base option list gmap strings.
From Stdlib Require Import String Ascii.

Open Scope string_scope.
Open Scope list_scope.

(** ** Values *)

(** [UserData] of [types.ts]. *)
Record UserData := mkUserData {
  uid : string;
  email : string;
  display_name : option string;
  photo_url : option string
}.

(** The arguments the SDK passes to listeners: [UserData | null], a
    boolean, an error string. *)
Inductive Value :=
| VNull
| VBool (b : bool)
| VString (s : string)
| VUser (u : UserData).

(** JavaScript truthiness of a string: only the empty string is falsy. *)
Definition truthy (s : string) : bool := negb (String.eqb s "").

(** [x || y] on optional strings, as in [state || undefined]. *)
Definition or_else (x : option string) (y : option string) : option string :=
  match x with
  | Some s => if truthy s then Some s else y
  | None => y
  end.

(** A listener, by reference. *)
Definition Callback := nat.

(** What can be thrown. *)
Inductive Exn :=
| CallbackThrew (cb : Callback)
| TypeError
| SecurityError
| RequestFailed (status : option nat).

Inductive Completion (A : Type) :=
| Normal (a : A)
| Throw (e : Exn).
Arguments Normal {A} a.
Arguments Throw {A} e.

(** The record of the calls made to listeners: who was called, with what. *)
Definition Log := list (Callback * list Value).

(** ** The state-and-exception monad *)

Definition M (W A : Type) : Type := W → Completion A * W.

Definition ret {W A} (a : A) : M W A := λ w, (Normal a, w).

Definition throw {W A} (e : Exn) : M W A := λ w, (Throw e, w).

Definition bind {W A B} (m : M W A) (k : A → M W B) : M W B :=
  λ w, match m w with
       | (Normal a, w') => k a w'
       | (Throw e, w') => (Throw e, w')
       end.

Notation "'let*' x ':=' m 'in' k" := (bind m (λ x, k))
  (at level 10, x pattern, m at level 100, k at level 200).
Notation "m ';;' k" := (bind m (λ _, k))
  (at level 100, k at level 200, right associativity).

(** [try { body } catch (err) { handler }]. *)
Definition try_catch {W A} (body : M W A) (handler : Exn → M W A) : M W A :=
  λ w, match body w with
       | (Normal a, w') => (Normal a, w')
       | (Throw e, w') => handler e w'
       end.

(** [try { body } catch (err) { handler } finally { fin }]: [fin] runs
    whatever [body] and [handler] did; an exception of [fin] replaces the
    completion reached before it. *)
Definition try_catch_finally {W A}
    (body : M W A) (handler : Exn → M W A) (fin : M W unit) : M W A :=
  λ w, let '(c, w1) := try_catch body handler w in
       match fin w1 with
       | (Normal _, w2) => (c, w2)
       | (Throw e, w2) => (Throw e, w2)
       end.

Definition modify {W} (f : W → W) : M W unit := λ w, (Normal tt, f w).

Definition gets {W A} (f : W → A) : M W A := λ w, (Normal (f w), w).

(** A promise whose outcome is already decided by the environment. *)
Definition Promise (A : Type) : Type := Completion A.

Definition settle {W A} (p : Promise A) : M W A := λ w, (p, w).

(** An async function that is called and not awaited, [later], in code
    [now] that goes on synchronously. The function sends its request in a
    later microtask (axios runs the request interceptors in its promise
    chain), so all of it runs after [now], whether or not [now] threw; an
    exception of [now] stays uncaught. *)
Definition and_later {W} (now later : M W unit) : M W unit :=
  λ w, let '(c, w1) := now w in
       let '(c', w2) := later w1 in
       (match c with Normal _ => c' | Throw e => Throw e end, w2).

(** ** events.ts *)

Module EventEmitter.

(** [private events: { [key: string]: Function[] } = {}], as a finite map:
    topics are names that [Object.prototype] does not define. *)
Record t := mk { events : gmap string (list Callback) }.

Definition new : t := mk ∅.

(** The closure returned by [on]: it captures [event] and [callback]. *)
Inductive Unsubscribe := unsub (event : string) (callback : Callback).

Definition on (event : string) (callback : Callback) (this : t)
  : t * Unsubscribe :=
  let evs :=
    match events this !! event with
    | None => <[event := []]> (events this)
    | Some _ => events this
    end in
  (mk (alter (λ l, l ++ [callback]) event evs), unsub event callback).

(** Running the returned closure. [this.events[event]] is [undefined]
    once the topic was cleared, and [.filter] on it is a [TypeError]. *)
Definition unsubscribe (u : Unsubscribe) (this : t) : Completion unit * t :=
  let 'unsub event callback := u in
  match events this !! event with
  | Some l =>
      (Normal tt, mk (<[event := filter (λ cb, cb ≠ callback) l]> (events this)))
  | None => (Throw TypeError, this)
  end.

Definition clear (event : option string) (this : t) : t :=
  match event with
  | Some e => if truthy e then mk (delete e (events this)) else mk ∅
  | None => mk ∅
  end.

Section Emit.
(** Whether calling a listener with given arguments throws. *)
Variable throws : Callback → list Value → bool.

(** [Array.prototype.forEach] with the body [callback(...args)]: an
    exception leaves the loop. *)
Fixpoint forEach (l : list Callback) (args : list Value) (log : Log)
  : Completion unit * Log :=
  match l with
  | [] => (Normal tt, log)
  | callback :: rest =>
      let log' := log ++ [(callback, args)] in
      if throws callback args
      then (Throw (CallbackThrew callback), log')
      else forEach rest args log'
  end.

Definition emit (event : string) (args : list Value) (this : t) (log : Log)
  : Completion unit * Log :=
  match events this !! event with
  | Some l => forEach l args log
  | None => (Normal tt, log)
  end.
End Emit.

(** The listeners of a topic, in registration order. *)
Definition listeners (event : string) (this : t) : list Callback :=
  default [] (events this !! event).

(** The calls a publish makes when nothing throws. *)
Definition calls_of (l : list Callback) (args : list Value) : Log :=
  (λ cb, (cb, args)) <$> l.

End EventEmitter.

(** ** The browser *)

(** [StorageKeys] of [types.ts]. *)
Module StorageKeys.
Definition TOKEN : string := "auth_gateway_token".
End StorageKeys.

(** *** URLs

    [window.location], with the query string as [URLSearchParams] yields
    it: the name/value pairs, in order. *)
Record Location := mkLocation {
  origin : string;
  pathname : string;
  search : list (string * string)
}.

(** [searchParams.get(name)]: the first value of that name, or [null]. *)
Fixpoint searchParams_get (name : string) (params : list (string * string))
  : option string :=
  match params with
  | [] => None
  | (k, v) :: rest => if String.eqb k name then Some v else searchParams_get name rest
  end.

(** The part of [s] before the first [c], and the part after it when [c]
    occurs. *)
Fixpoint split_at (c : ascii) (s : string) : string * option string :=
  match s with
  | EmptyString => (EmptyString, None)
  | String a s' =>
      if Ascii.eqb a c then (EmptyString, Some s')
      else let '(before, after) := split_at c s' in (String a before, after)
  end.

(** The pieces of [s] between the occurrences of [c]. *)
Fixpoint split_on (c : ascii) (s : string) : list string :=
  match s with
  | EmptyString => [EmptyString]
  | String a s' =>
      if Ascii.eqb a c then EmptyString :: split_on c s'
      else match split_on c s' with
           | [] => [String a EmptyString]
           | piece :: pieces => String a piece :: pieces
           end
  end.

(** A query string as name/value pairs: pieces between [&], each cut at
    its first [=]; empty pieces are skipped. *)
Definition parse_query (q : string) : list (string * string) :=
  omap (λ piece,
          if truthy piece
          then let '(k, v) := split_at "=" piece in Some (k, default "" v)
          else None)
       (split_on "&" q).

(** How the browser resolves the URL given to [history.replaceState]
    against the URL of the page: the new URL of the page, or nothing when
    it refuses the call with a [SecurityError] (a URL of another origin).
    The resolution is the browser's: it is a parameter of the model. *)
Definition Resolver : Type := string → Location → option Location.

(** A resolver for the examples. It answers for a reference made of a
    path that starts with a single [/], an optional query and an optional
    fragment, and refuses every other reference. *)
Definition sample_resolver : Resolver :=
  λ url loc,
    let '(rest, _) := split_at "#" url in
    let '(path, query) := split_at "?" rest in
    match path with
    | String "/" (String "/" _) => None
    | String "/" _ =>
        Some {| origin := origin loc;
                pathname := path;
                search := match query with
                          | Some q => parse_query q
                          | None => []
                          end |}
    | _ => None
    end.

(** *** Requests *)

(** The data the client posts: none ([post] called without data, or
    with [null] as in [verifyToken]), or a JSON body. *)
Inductive Body :=
| NoBody
| LoginBody (redirect_uri : string)
| CallbackBody (code : string) (state : option string).

(** A request config as it leaves the request interceptor; [headers] are
    the headers set by this code. What axios does with the config
    afterwards (its own default headers, the serialised body) is not part
    of it. *)
Record Request := mkRequest {
  baseURL : string;
  url : string;
  data : Body;
  headers : gmap string string
}.

(** *** The page's environment *)
Record Browser := mkBrowser {
  localStorage : gmap string string;
  location : Location;
  (** the last [window.location.href = ...], a navigation away *)
  navigation : option string;
  (** the requests sent so far, oldest first *)
  requests : list Request
}.

Definition getItem (key : string) (b : Browser) : option string :=
  localStorage b !! key.

Definition setItem (key value : string) (b : Browser) : Browser :=
  mkBrowser (<[key := value]> (localStorage b)) (location b) (navigation b) (requests b).

Definition removeItem (key : string) (b : Browser) : Browser :=
  mkBrowser (delete key (localStorage b)) (location b) (navigation b) (requests b).

Definition set_location (loc : Location) (b : Browser) : Browser :=
  mkBrowser (localStorage b) loc (navigation b) (requests b).

(** [window.history.replaceState({}, document.title, url)] *)
Definition replaceState (resolve_url : Resolver) (url : string) : M Browser unit :=
  λ b, match resolve_url url (location b) with
       | Some loc => (Normal tt, set_location loc b)
       | None => (Throw SecurityError, b)
       end.

Definition assign_href (url : string) (b : Browser) : Browser :=
  mkBrowser (localStorage b) (location b) (Some url) (requests b).

Definition send (r : Request) (b : Browser) : Browser :=
  mkBrowser (localStorage b) (location b) (navigation b) (requests b ++ [r]).

(** ** The backend *)

(** What the HTTP layer hands back: the data of a 2xx response, or a
    failure with the status when there is one. *)
Inductive Http (A : Type) :=
| Ok (response_data : A)
| Failed (status : option nat).
Arguments Ok {A} response_data.
Arguments Failed {A} status.

(** The four endpoints, as functions of the request received. *)
Record Backend := mkBackend {
  auth_login : Request → Http string;
  auth_callback : Request → Http (string * UserData);
  verify_token : Request → Http UserData;
  auth_logout : Request → Http unit
}.

(** ** api-client.ts *)

Module ApiClient.

(** [ApiClientConfig] *)
Record Config := mkConfig { baseUrl : string }.

(** The instance: the axios client made by [axios.create]. *)
Record t := mk {
  client_baseURL : string;
  client_headers : gmap string string
}.

Definition new (config : Config) : t :=
  mk (baseUrl config) {[ "Content-Type" := "application/json" ]}.

(** The request interceptor installed by the constructor. *)
Definition interceptor (b : Browser) (config : Request) : Request :=
  match getItem StorageKeys.TOKEN b with
  | Some token =>
      if truthy token
      then mkRequest (baseURL config) (url config) (data config)
             (<["Authorization" := "Bearer " +:+ token]> (headers config))
      else config
  | None => config
  end.

(** The config the interceptor receives for [post(url, data, { headers })],
    as far as this code sets it: the headers given to [axios.create],
    overridden by the call's own. *)
Definition config_of (this : t) (path : string) (body : Body)
    (own : gmap string string) : Request :=
  mkRequest (client_baseURL this) path body (own ∪ client_headers this).

(** The request as it leaves the page. *)
Definition prepare (this : t) (path : string) (body : Body)
    (own : gmap string string) (b : Browser) : Request :=
  interceptor b (config_of this path body own).

Section Calls.
Variable backend : Backend.

(** [this.client.post(url, data, { headers })]: the request goes
    through the interceptor and is sent; the promise settles with the
    response data, or rejects. *)
Definition post {A} (endpoint : Backend → Request → Http A)
    (this : t) (path : string) (body : Body) (own : gmap string string)
  : M Browser (Promise A) :=
  λ b,
    let request := prepare this path body own b in
    (Normal match endpoint backend request with
            | Ok d => Normal d
            | Failed status => Throw (RequestFailed status)
            end,
     send request b).

(** Each method is [try { ... await post ... } catch (error) { throw
    error }]: its promise settles as the request does. *)
Definition login (this : t) (redirectUri : option string)
  : M Browser (Promise string) :=
  let* here := gets (λ b, origin (location b)) in
  post auth_login this "/auth/login"
    (LoginBody (default here (or_else redirectUri None))) ∅.

Definition handleCallback (this : t) (code : string) (state : option string)
  : M Browser (Promise (string * UserData)) :=
  post auth_callback this "/auth/callback" (CallbackBody code state) ∅.

Definition logout (this : t) : M Browser (Promise unit) :=
  post auth_logout this "/auth/logout" NoBody ∅.

Definition verifyToken (this : t) (token : string)
  : M Browser (Promise UserData) :=
  post verify_token this "/verify-token" NoBody
    {[ "Authorization" := "Bearer " +:+ token ]}.

Definition getCurrentUser (this : t) : M Browser (Promise UserData) :=
  post verify_token this "/verify-token" NoBody ∅.
End Calls.

Definition createApiClient (config : Config) : t := new config.

End ApiClient.

(** ** vanilla-auth.ts *)

Module VanillaAuthClient.

(** [VanillaAuthClientConfig] *)
Record Config := mkConfig {
  authBackendUrl : string;
  redirectUri : option string
}.

(** The private fields of the class. *)
Record t := mk {
  apiClient : option ApiClient.t;
  user : option UserData;
  isLoading : bool;
  error : option string;
  events : EventEmitter.t
}.

(** The fields as the class initialises them. *)
Definition fresh : t := mk None None true None EventEmitter.new.

(** What the page around the client does with its public subscription
    interface. *)
Inductive Action :=
| OnAuthStateChanged (callback : Callback)
| OnError (callback : Callback)
| OnLoadingStateChanged (callback : Callback)
| Unsubscribe (u : EventEmitter.Unsubscribe)
| Destroy.

(** The client in its page: the browser, the object, the calls made to
    listeners so far, and [pending]: what the page does while the next
    backend request is in flight (the page registers its listeners right
    after [new VanillaAuthClient(config)] returns, when the first request
    of [initialize] is still pending). *)
Record World := mkWorld {
  browser : Browser;
  this : t;
  calls : Log;
  pending : list Action
}.

Definition on_browser (f : Browser → Browser) (w : World) : World :=
  mkWorld (f (browser w)) (this w) (calls w) (pending w).
Definition on_this (f : t → t) (w : World) : World :=
  mkWorld (browser w) (f (this w)) (calls w) (pending w).
Definition set_calls (log : Log) (w : World) : World :=
  mkWorld (browser w) (this w) log (pending w).
Definition set_pending (s : list Action) (w : World) : World :=
  mkWorld (browser w) (this w) (calls w) s.

Definition set_apiClient (c : option ApiClient.t) (o : t) : t :=
  mk c (user o) (isLoading o) (error o) (events o).
Definition set_user (u : option UserData) (o : t) : t :=
  mk (apiClient o) u (isLoading o) (error o) (events o).
Definition set_isLoading (l : bool) (o : t) : t :=
  mk (apiClient o) (user o) l (error o) (events o).
Definition set_error (e : option string) (o : t) : t :=
  mk (apiClient o) (user o) (isLoading o) e (events o).
Definition set_events (ev : EventEmitter.t) (o : t) : t :=
  mk (apiClient o) (user o) (isLoading o) (error o) ev.

(** A browser operation, run in the page. *)
Definition in_browser {A} (m : M Browser A) : M World A :=
  λ w, let '(c, b) := m (browser w) in
       (c, mkWorld b (this w) (calls w) (pending w)).

Definition user_value (u : option UserData) : Value :=
  match u with Some d => VUser d | None => VNull end.

Section Client.
Variable throws : Callback → list Value → bool.
Variable backend : Backend.
Variable resolve_url : Resolver.

(** [callback(...args)] *)
Definition call (callback : Callback) (args : list Value) : M World unit :=
  λ w, (if throws callback args then Throw (CallbackThrew callback) else Normal tt,
        set_calls (calls w ++ [(callback, args)]) w).

(** [this.events.emit(event, ...args)] *)
Definition emit (event : string) (args : list Value) : M World unit :=
  λ w, let '(c, log) :=
         EventEmitter.emit throws event args (events (this w)) (calls w) in
       (c, set_calls log w).

(** [this.events.on(event, callback)] *)
Definition on (event : string) (callback : Callback)
  : M World EventEmitter.Unsubscribe :=
  λ w, let '(ev, u) := EventEmitter.on event callback (events (this w)) in
       (Normal u, on_this (set_events ev) w).

Definition setUser (user : option UserData) : M World unit :=
  modify (on_this (set_user user));;
  emit "authStateChanged" [user_value user].

Definition setLoading (isLoading : bool) : M World unit :=
  modify (on_this (set_isLoading isLoading));;
  emit "loadingStateChanged" [VBool isLoading].

Definition setError (error : option string) : M World unit :=
  modify (on_this (set_error error));;
  match error with
  | Some e => if truthy e then emit "error" [VString e] else ret tt
  | None => ret tt
  end.

Definition onAuthStateChanged (callback : Callback)
  : M World EventEmitter.Unsubscribe :=
  let* current := gets (λ w, user (this w)) in
  call callback [user_value current];;
  on "authStateChanged" callback.

Definition onError (callback : Callback) : M World EventEmitter.Unsubscribe :=
  on "error" callback.

Definition onLoadingStateChanged (callback : Callback)
  : M World EventEmitter.Unsubscribe :=
  let* current := gets (λ w, isLoading (this w)) in
  call callback [VBool current];;
  on "loadingStateChanged" callback.

Definition getCurrentUser : M World (option UserData) :=
  gets (λ w, user (this w)).
Definition isAuthLoading : M World bool := gets (λ w, isLoading (this w)).
Definition getError : M World (option string) := gets (λ w, error (this w)).

Definition destroy : M World unit :=
  modify (on_this (λ o, set_events (EventEmitter.clear None (events o)) o)).

(** One step of the page; what it throws is the page's own affair. *)
Definition run_action (a : Action) : M World unit :=
  match a with
  | OnAuthStateChanged cb => onAuthStateChanged cb;; ret tt
  | OnError cb => onError cb;; ret tt
  | OnLoadingStateChanged cb => onLoadingStateChanged cb;; ret tt
  | Unsubscribe u =>
      λ w, let '(c, ev) := EventEmitter.unsubscribe u (events (this w)) in
           (c, on_this (set_events ev) w)
  | Destroy => destroy
  end.

Fixpoint run_script (s : list Action) (w : World) : World :=
  match s with
  | [] => w
  | a :: s' => run_script s' (run_action a w).2
  end.

(** [await request]: the request is sent, the page goes on with what
    it had [pending], then the response arrives. *)
Definition await {A} (request : M Browser (Promise A)) : M World A :=
  let* promise := in_browser request in
  modify (λ w, run_script (pending w) (set_pending [] w));;
  settle promise.

Definition handleDirectToken (token : string) : M World unit :=
  let* api := gets (λ w, apiClient (this w)) in
  match api with
  | None => setLoading false
  | Some apiClient =>
      setLoading true;;
      setError None;;
      try_catch_finally
        (modify (on_browser (setItem StorageKeys.TOKEN token));;
         let* userData := await (ApiClient.getCurrentUser backend apiClient) in
         setUser (Some userData);;
         let* path := gets (λ w, pathname (location (browser w))) in
         in_browser (replaceState resolve_url path))
        (λ err,
           setError (Some "Authentication failed. Please try again.");;
           modify (on_browser (removeItem StorageKeys.TOKEN)))
        (setLoading false)
  end.

Definition handleCallback (code : string) (state : option string)
  : M World unit :=
  let* api := gets (λ w, apiClient (this w)) in
  match api with
  | None => setLoading false
  | Some apiClient =>
      setLoading true;;
      setError None;;
      try_catch_finally
        (let* (token, user) :=
           await (ApiClient.handleCallback backend apiClient code state) in
         modify (on_browser (setItem StorageKeys.TOKEN token));;
         setUser (Some user);;
         let* path := gets (λ w, pathname (location (browser w))) in
         in_browser (replaceState resolve_url path))
        (λ err,
           setError (Some "Authentication failed. Please try again.");;
           modify (on_browser (removeItem StorageKeys.TOKEN)))
        (setLoading false)
  end.

Definition checkExistingAuth : M World unit :=
  let* api := gets (λ w, apiClient (this w)) in
  match api with
  | None => setLoading false
  | Some apiClient =>
      let* token := gets (λ w, getItem StorageKeys.TOKEN (browser w)) in
      match or_else token None with
      | None => setLoading false
      | Some _ =>
          try_catch_finally
            (let* userData :=
               await (ApiClient.getCurrentUser backend apiClient) in
             setUser (Some userData))
            (λ err,
               modify (on_browser (removeItem StorageKeys.TOKEN));;
               setError (Some "Authentication failed. Please log in again."))
            (setLoading false)
      end
  end.

Definition initialize (config : Config) : M World unit :=
  try_catch
    (modify (on_this (set_apiClient
       (Some (ApiClient.createApiClient
                (ApiClient.mkConfig (authBackendUrl config))))));;
     let* params := gets (λ w, search (location (browser w))) in
     let code := searchParams_get "code" params in
     let state := searchParams_get "state" params in
     let token := searchParams_get "token" params in
     match or_else token None with
     | Some token => handleDirectToken token
     | None =>
         match or_else code None with
         | Some code => handleCallback code (or_else state None)
         | None => checkExistingAuth
         end
     end)
    (λ err,
       setError (Some "Failed to initialize authentication");;
       setLoading false).

Definition getRedirectUri : M World string :=
  gets (λ w, origin (location (browser w)) +:+ pathname (location (browser w))).

Definition login : M World unit :=
  let* api := gets (λ w, apiClient (this w)) in
  match api with
  | None => setError (Some "Authentication not initialized")
  | Some apiClient =>
      setLoading true;;
      setError None;;
      try_catch
        (let* redirectUri := getRedirectUri in
         let* authUrl :=
           await (ApiClient.login backend apiClient (Some redirectUri)) in
         modify (on_browser (assign_href authUrl)))
        (λ err,
           setError (Some "Login failed. Please try again.");;
           setLoading false)
  end.

Definition logout : M World unit :=
  let* api := gets (λ w, apiClient (this w)) in
  match api with
  | None => setError (Some "Authentication not initialized")
  | Some apiClient =>
      setLoading true;;
      setError None;;
      try_catch_finally
        (await (ApiClient.logout backend apiClient);;
         modify (on_browser (removeItem StorageKeys.TOKEN));;
         setUser None)
        (λ err, setError (Some "Logout failed. Please try again."))
        (setLoading false)
  end.

(** [new VanillaAuthClient(config)] in a page with browser [b] that
    goes on with [script] once the constructor has returned. *)
Definition construct (config : Config) (b : Browser) (script : list Action)
  : Completion unit * World :=
  initialize config (mkWorld b fresh [] script).
End Client.

End VanillaAuthClient.

(** ** auth-context.tsx *)

Module AuthProvider.

(** [AuthProviderProps], without the views. *)
Record Props := mkProps {
  authBackendUrl : string;
  loginRedirectPath : option string;
  unauthorizedRedirectPath : option string
}.

(** The four [useState] cells. *)
Record State := mkState {
  user : option UserData;
  isLoading : bool;
  error : option string;
  apiClient : option ApiClient.t
}.

(** The cells at the first render. *)
Definition initial : State := mkState None true None None.

Record World := mkWorld {
  browser : Browser;
  state : State
}.

Definition on_browser (f : Browser → Browser) (w : World) : World :=
  mkWorld (f (browser w)) (state w).
Definition on_state (f : State → State) (w : World) : World :=
  mkWorld (browser w) (f (state w)).

Definition in_browser {A} (m : M Browser A) : M World A :=
  λ w, let '(c, b) := m (browser w) in (c, mkWorld b (state w)).

Definition setUser (u : option UserData) : M World unit :=
  modify (on_state (λ s, mkState u (isLoading s) (error s) (apiClient s))).
Definition setIsLoading (l : bool) : M World unit :=
  modify (on_state (λ s, mkState (user s) l (error s) (apiClient s))).
Definition setError (e : option string) : M World unit :=
  modify (on_state (λ s, mkState (user s) (isLoading s) e (apiClient s))).
Definition setApiClient (c : option ApiClient.t) : M World unit :=
  modify (on_state (λ s, mkState (user s) (isLoading s) (error s) c)).

Section Provider.
Variable backend : Backend.
Variable resolve_url : Resolver.
Variable props : Props.

(** The defaults of the destructured props. *)
Definition loginPath : string := default "/" (loginRedirectPath props).
Definition unauthorizedPath : string :=
  default "/login" (unauthorizedRedirectPath props).

Definition await {A} (request : M Browser (Promise A)) : M World A :=
  let* promise := in_browser request in
  settle promise.

(** The first effect: [useEffect(..., [authBackendUrl])]. *)
Definition effect_client : M World unit :=
  try_catch
    (let client := ApiClient.createApiClient
                     (ApiClient.mkConfig (authBackendUrl props)) in
     setApiClient (Some client))
    (λ err,
       setError (Some "Failed to initialize authentication");;
       setIsLoading false).

(** [getUserData] of the direct-token branch. *)
Definition getUserData (apiClient : ApiClient.t) : M World unit :=
  try_catch_finally
    (let* userData := await (ApiClient.getCurrentUser backend apiClient) in
     setUser (Some userData))
    (λ err,
       setError (Some "Authentication failed. Please try again.");;
       modify (on_browser (removeItem StorageKeys.TOKEN));;
       in_browser (replaceState resolve_url unauthorizedPath))
    (setIsLoading false).

Definition handleCallback (apiClient : ApiClient.t)
    (code : string) (state : option string) : M World unit :=
  setIsLoading true;;
  setError None;;
  try_catch_finally
    (let* (token, user) :=
       await (ApiClient.handleCallback backend apiClient code (or_else state None)) in
     modify (on_browser (setItem StorageKeys.TOKEN token));;
     setUser (Some user);;
     in_browser (replaceState resolve_url loginPath))
    (λ err,
       setError (Some "Authentication failed. Please try again.");;
       modify (on_browser (removeItem StorageKeys.TOKEN));;
       in_browser (replaceState resolve_url unauthorizedPath))
    (setIsLoading false).

Definition checkAuth (apiClient : ApiClient.t) : M World unit :=
  let* token := gets (λ w, getItem StorageKeys.TOKEN (browser w)) in
  match or_else token None with
  | None => setIsLoading false
  | Some _ =>
      try_catch_finally
        (let* userData := await (ApiClient.getCurrentUser backend apiClient) in
         setUser (Some userData))
        (λ err,
           modify (on_browser (removeItem StorageKeys.TOKEN));;
           setError (Some "Authentication failed. Please log in again."))
        (setIsLoading false)
  end.

(** The second effect:
    [useEffect(..., [apiClient, loginRedirectPath, unauthorizedRedirectPath])].
    In the direct-token branch [getUserData()] is called in the [try],
    after [setItem] (which does not throw here, so the call is always
    reached), and not awaited: see [and_later]. *)
Definition effect_auth : M World unit :=
  let* api := gets (λ w, apiClient (state w)) in
  match api with
  | None => ret tt
  | Some apiClient =>
      let* params := gets (λ w, search (location (browser w))) in
      let code := searchParams_get "code" params in
      let state := searchParams_get "state" params in
      let token := searchParams_get "token" params in
      match or_else token None with
      | Some token =>
          and_later
            (setIsLoading true;;
             setError None;;
             try_catch
               (modify (on_browser (setItem StorageKeys.TOKEN token));;
                in_browser (replaceState resolve_url loginPath))
               (λ err,
                  setError (Some "Authentication failed. Please try again.");;
                  modify (on_browser (removeItem StorageKeys.TOKEN));;
                  setIsLoading false;;
                  in_browser (replaceState resolve_url unauthorizedPath)))
            (getUserData apiClient)
      | None =>
          match or_else code None with
          | Some code => handleCallback apiClient code state
          | None => checkAuth apiClient
          end
      end
  end.

Definition login : M World unit :=
  let* api := gets (λ w, apiClient (state w)) in
  match api with
  | None => setError (Some "Authentication not initialized")
  | Some apiClient =>
      setIsLoading true;;
      setError None;;
      try_catch
        (let* here := gets (λ w, origin (location (browser w))) in
         let* authUrl := await (ApiClient.login backend apiClient (Some here)) in
         modify (on_browser (assign_href authUrl)))
        (λ err,
           setError (Some "Login failed. Please try again.");;
           setIsLoading false)
  end.

Definition logout : M World unit :=
  let* api := gets (λ w, apiClient (state w)) in
  match api with
  | None => setError (Some "Authentication not initialized")
  | Some apiClient =>
      setIsLoading true;;
      setError None;;
      try_catch_finally
        (await (ApiClient.logout backend apiClient);;
         modify (on_browser (removeItem StorageKeys.TOKEN));;
         setUser None)
        (λ err, setError (Some "Logout failed. Please try again."))
        (setIsLoading false)
  end.

(** The provider mounted in a page with browser [b]: both effects run,
    the second one with the client the first one has set. *)
Definition mount (b : Browser) : Completion unit * World :=
  (effect_client;; effect_auth) (mkWorld b initial).
End Provider.

(** What the component returns: the loading placeholder, or the children
    under the context value made of the three state cells (the two actions
    go with it). [LoadingComponent] tells whether the prop was given. *)
Inductive View :=
| LoadingView
| ChildrenView (user : option UserData) (isLoading : bool) (error : option string).

Definition render (LoadingComponent : bool) (s : State) : View :=
  if isLoading s && LoadingComponent
  then LoadingView
  else ChildrenView (user s) (isLoading s) (error s).

End AuthProvider.

(** ** Sample data *)

Definition alice : UserData := mkUserData "u1" "a@b.com" None None.

Definition page (query : list (string * string)) (stored : option string) : Browser :=
  mkBrowser
    (match stored with Some t => {[ StorageKeys.TOKEN := t ]} | None => ∅ end)
    (mkLocation "https://app.example" "/app" query) None [].

(** A backend that accepts everything. *)
Definition accepting : Backend :=
  mkBackend (λ _, Ok "https://accounts.example/o/oauth2")
            (λ _, Ok ("fresh", alice))
            (λ _, Ok alice)
            (λ _, Ok tt).

(** A backend that answers every request with status 401. *)
Definition rejecting : Backend :=
  mkBackend (λ _, Failed (Some 401)) (λ _, Failed (Some 401))
            (λ _, Failed (Some 401)) (λ _, Failed (Some 401)).

Definition quiet : Callback → list Value → bool := λ _ _, false.

Definition vanilla_config : VanillaAuthClient.Config :=
  VanillaAuthClient.mkConfig "https://auth.example" None.

Definition react_props : AuthProvider.Props :=
  AuthProvider.mkProps "https://auth.example" None None.

(** ** Notions used in the statements *)

(** The token the client treats as stored: a non-empty string under the
    storage key (the source tests [if (token)]). *)
Definition stored_token (b : Browser) : option string :=
  or_else (getItem StorageKeys.TOKEN b) None.

(** [request] is [config] with the bearer credential of the token stored
    in [b], and is [config] itself when no token is stored. *)
Definition carries_stored_token (b : Browser) (config request : Request) : Prop :=
  match stored_token b with
  | Some token =>
      headers request = <["Authorization" := "Bearer " +:+ token]> (headers config)
      ∧ headers request !! "Authorization" = Some ("Bearer " +:+ token)
      ∧ baseURL request = baseURL config
      ∧ url request = url config
      ∧ data request = data config
  | None => request = config
  end.

(** A page in which the vanilla client is initialised and a user is
    signed in with a stored token. *)
Definition signed_in_page : VanillaAuthClient.World :=
  VanillaAuthClient.mkWorld (page [] (Some "tok"))
    (VanillaAuthClient.mk
       (Some (ApiClient.createApiClient (ApiClient.mkConfig "https://auth.example")))
       (Some alice) false None EventEmitter.new)
    [] [].

(** The same for the React provider. *)
Definition signed_in_app : AuthProvider.World :=
  AuthProvider.mkWorld (page [] (Some "tok"))
    (AuthProvider.mkState (Some alice) false None
       (Some (ApiClient.createApiClient (ApiClient.mkConfig "https://auth.example")))).

(** Two states of a page that differ at most in the listeners and in the
    calls made to them. *)
Definition same_core (w w' : VanillaAuthClient.World) : Prop :=
  VanillaAuthClient.browser w' = VanillaAuthClient.browser w
  ∧ VanillaAuthClient.apiClient (VanillaAuthClient.this w')
    = VanillaAuthClient.apiClient (VanillaAuthClient.this w)
  ∧ VanillaAuthClient.user (VanillaAuthClient.this w')
    = VanillaAuthClient.user (VanillaAuthClient.this w)
  ∧ VanillaAuthClient.isLoading (VanillaAuthClient.this w')
    = VanillaAuthClient.isLoading (VanillaAuthClient.this w)
  ∧ VanillaAuthClient.error (VanillaAuthClient.this w')
    = VanillaAuthClient.error (VanillaAuthClient.this w).

(** * Properties *)

(** *** Facts about the emitter *)

Lemma on_events event callback this :
  EventEmitter.events (EventEmitter.on event callback this).1
  = <[event := EventEmitter.listeners event this ++ [callback]]>
      (EventEmitter.events this).
Proof.
  unfold EventEmitter.on, EventEmitter.listeners. simpl.
  destruct (EventEmitter.events this !! event) as [l|] eqn:E; simpl.
  - apply map_eq. intros k. destruct (decide (event = k)) as [<-|Hne].
    + by rewrite lookup_alter_eq, lookup_insert_eq, E.
    + by rewrite lookup_alter_ne, lookup_insert_ne.
  - apply map_eq. intros k. destruct (decide (event = k)) as [<-|Hne].
    + by rewrite lookup_alter_eq, !lookup_insert_eq.
    + by rewrite lookup_alter_ne, !lookup_insert_ne.
Qed.

Lemma on_listeners event callback this :
  EventEmitter.listeners event (EventEmitter.on event callback this).1
  = EventEmitter.listeners event this ++ [callback].
Proof.
  unfold EventEmitter.listeners at 1.
  by rewrite on_events, lookup_insert_eq.
Qed.

Lemma on_returns event callback this :
  (EventEmitter.on event callback this).2 = EventEmitter.unsub event callback.
Proof. reflexivity. Qed.

Section EmitFacts.
Variable throws : Callback → list Value → bool.

(** When no listener throws, all are called, in order. *)
Lemma forEach_quiet l args log :
  Forall (λ cb, throws cb args = false) l →
  EventEmitter.forEach throws l args log
  = (Normal tt, log ++ EventEmitter.calls_of l args).
Proof.
  intros H. revert log. induction H as [|cb l Hcb _ IH]; intros log; simpl.
  - by rewrite app_nil_r.
  - rewrite Hcb, IH. unfold EventEmitter.calls_of. simpl.
    by rewrite <- app_assoc.
Qed.

(** The first listener that throws ends the publish. *)
Lemma forEach_throw l1 cb l2 args log :
  Forall (λ c, throws c args = false) l1 →
  throws cb args = true →
  EventEmitter.forEach throws (l1 ++ cb :: l2) args log
  = (Throw (CallbackThrew cb), log ++ EventEmitter.calls_of (l1 ++ [cb]) args).
Proof.
  intros H Hcb. revert log. induction H as [|c l Hc _ IH]; intros log; simpl.
  - by rewrite Hcb.
  - rewrite Hc, IH. unfold EventEmitter.calls_of. simpl.
    by rewrite <- app_assoc.
Qed.

Lemma emit_listeners event args this log :
  EventEmitter.emit throws event args this log
  = EventEmitter.forEach throws (EventEmitter.listeners event this) args log.
Proof.
  unfold EventEmitter.emit, EventEmitter.listeners.
  by destruct (EventEmitter.events this !! event).
Qed.

Lemma emit_clear event args this log :
  EventEmitter.emit throws event args (EventEmitter.clear None this) log
  = (Normal tt, log).
Proof. unfold EventEmitter.emit. simpl. by rewrite lookup_empty. Qed.
End EmitFacts.

Section EmitterClaims.
Variable throws : Callback → list Value → bool.

Lemma emit_quiet event args this log :
  Forall (λ cb, throws cb args = false) (EventEmitter.listeners event this) →
  EventEmitter.emit throws event args this log
  = (Normal tt,
     log ++ EventEmitter.calls_of (EventEmitter.listeners event this) args).
Proof. intros. rewrite emit_listeners. by apply forEach_quiet. Qed.

(** A listener appended to quiet ones is reached, whatever it does. *)
Lemma forEach_last l cb args log :
  Forall (λ c, throws c args = false) l →
  EventEmitter.forEach throws (l ++ [cb]) args log
  = (if throws cb args then Throw (CallbackThrew cb) else Normal tt,
     log ++ EventEmitter.calls_of (l ++ [cb]) args).
Proof.
  intros Hl. destruct (throws cb args) eqn:Hcb.
  - by apply forEach_throw.
  - apply forEach_quiet. apply Forall_app. split; [done|]. by constructor.
Qed.

(** C4, as amended. A publish calls the listeners of the topic in
    registration order up to and including the first one that throws;
    that exception leaves [emit], and the listeners registered after it
    are not called. *)
Theorem emit_until_first_throw event args this log l1 cb l2 :
  EventEmitter.listeners event this = l1 ++ cb :: l2 →
  Forall (λ c, throws c args = false) l1 →
  throws cb args = true →
  EventEmitter.emit throws event args this log
  = (Throw (CallbackThrew cb),
     log ++ EventEmitter.calls_of (l1 ++ [cb]) args).
Proof.
  intros Hl Hq Hcb. rewrite emit_listeners, Hl. by apply forEach_throw.
Qed.

Lemma unsubscribe_listed u l this :
  EventEmitter.events this
    !! (match u with EventEmitter.unsub event _ => event end) = Some l →
  EventEmitter.unsubscribe u this
  = (Normal tt,
     EventEmitter.mk
       (<[match u with EventEmitter.unsub event _ => event end
          := filter (λ cb, cb ≠ match u with EventEmitter.unsub _ c => c end) l]>
          (EventEmitter.events this))).
Proof. destruct u as [event callback]. simpl. by intros ->. Qed.

Lemma unsubscribe_after_on event callback this :
  EventEmitter.unsubscribe (EventEmitter.unsub event callback)
    (EventEmitter.on event callback this).1
  = (Normal tt,
     EventEmitter.mk
       (<[event := filter (λ cb, cb ≠ callback)
                     (EventEmitter.listeners event this)]>
          (EventEmitter.events this))).
Proof.
  rewrite (unsubscribe_listed _ (EventEmitter.listeners event this ++ [callback])).
  - f_equal. f_equal. rewrite on_events, insert_insert_eq. f_equal.
    rewrite filter_app, filter_cons_False, filter_nil, app_nil_r; [done|].
    by intros ?.
  - by rewrite on_events, lookup_insert_eq.
Qed.

Lemma filter_ne_idemp (callback : Callback) (l : list Callback) :
  filter (λ cb, cb ≠ callback) (filter (λ cb, cb ≠ callback) l)
  = filter (λ cb, cb ≠ callback) l.
Proof.
  induction l as [|x l IH]; [done|].
  rewrite (filter_cons _ x l). destruct (decide (x ≠ callback)) as [Hx|Hx].
  - rewrite filter_cons_True by done. by rewrite IH.
  - done.
Qed.

(** C8, as amended. Subscribing and publishing at once calls the new
    handler with exactly the published arguments, provided no handler
    registered earlier on the topic throws on them; after [clear()] a
    publish on any topic calls nothing; the unsubscribe function removes
    that handler from the topic and leaves the others, in their order. *)
Theorem subscribe_publish_clear_unsubscribe topic handler args this log :
  Forall (λ cb, throws cb args = false) (EventEmitter.listeners topic this) →
  let this1 := (EventEmitter.on topic handler this).1 in
  let u := (EventEmitter.on topic handler this).2 in
  (EventEmitter.emit throws topic args this1 log).2
  = log ++ EventEmitter.calls_of (EventEmitter.listeners topic this) args
        ++ [(handler, args)]
  ∧ (∀ topic',
       EventEmitter.emit throws topic' args (EventEmitter.clear None this1) log
       = (Normal tt, log))
  ∧ (EventEmitter.unsubscribe u this1).1 = Normal tt
  ∧ EventEmitter.listeners topic (EventEmitter.unsubscribe u this1).2
    = filter (λ cb, cb ≠ handler) (EventEmitter.listeners topic this)
  ∧ (∀ other, other ≠ handler →
       other ∈ EventEmitter.listeners topic this1 →
       other ∈ EventEmitter.listeners topic (EventEmitter.unsubscribe u this1).2).
Proof.
  intros Hq this1 u. subst this1 u. rewrite on_returns.
  rewrite unsubscribe_after_on.
  split; [|split; [|split; [|split]]].
  - rewrite emit_listeners, on_listeners, forEach_last by done.
    unfold EventEmitter.calls_of. cbn [snd]. by rewrite fmap_app.
  - intros topic'. apply emit_clear.
  - done.
  - unfold EventEmitter.listeners at 1. cbn [snd EventEmitter.events].
    by rewrite lookup_insert_eq.
  - intros other Hne Hin. unfold EventEmitter.listeners at 1.
    cbn [snd EventEmitter.events].
    rewrite lookup_insert_eq. apply list_elem_of_filter. split; [done|].
    rewrite on_listeners in Hin. apply elem_of_app in Hin as [Hin|Hin]; [done|].
    apply list_elem_of_singleton in Hin. done.
Qed.

(** C10. The unsubscribe function removes every registration of its
    handler on its topic, also when the handler was subscribed twice;
    calling it again changes nothing; other topics are not touched. *)
Theorem unsubscribe_removes_every_registration topic handler this :
  let this1 := (EventEmitter.on topic handler this).1 in
  let u := (EventEmitter.on topic handler this).2 in
  let this2 := (EventEmitter.on topic handler this1).1 in
  let once := (EventEmitter.unsubscribe u this2).2 in
  (EventEmitter.unsubscribe u this2).1 = Normal tt
  ∧ EventEmitter.listeners topic this2
    = EventEmitter.listeners topic this ++ [handler; handler]
  ∧ EventEmitter.listeners topic once
    = filter (λ cb, cb ≠ handler) (EventEmitter.listeners topic this)
  ∧ (handler ∉ EventEmitter.listeners topic once)
  ∧ EventEmitter.unsubscribe u once = (Normal tt, once)
  ∧ (EventEmitter.unsubscribe u this1).2 = once
  ∧ (∀ topic', topic' ≠ topic →
       EventEmitter.events once !! topic' = EventEmitter.events this !! topic').
Proof.
  intros this1 u this2 once. subst once this2 u. rewrite on_returns.
  assert (Hl2 : EventEmitter.listeners topic (EventEmitter.on topic handler this1).1
                = EventEmitter.listeners topic this ++ [handler; handler]).
  { subst this1. rewrite !on_listeners. by rewrite <- app_assoc. }
  rewrite (unsubscribe_after_on topic handler this1).
  assert (Hf : filter (λ cb, cb ≠ handler) (EventEmitter.listeners topic this1)
               = filter (λ cb, cb ≠ handler) (EventEmitter.listeners topic this)).
  { subst this1. rewrite on_listeners, filter_app.
    rewrite filter_cons_False, filter_nil, app_nil_r; [done|]. by intros ?. }
  assert (He : <[topic := filter (λ cb, cb ≠ handler) (EventEmitter.listeners topic this1)]>
                 (EventEmitter.events this1)
               = <[topic := filter (λ cb, cb ≠ handler) (EventEmitter.listeners topic this)]>
                 (EventEmitter.events this)).
  { rewrite Hf. subst this1. by rewrite on_events, insert_insert_eq. }
  cbn [fst snd]. rewrite He.
  split; [done|]. split; [done|].
  split; [|split; [|split; [|split]]].
  - unfold EventEmitter.listeners at 1. cbn [EventEmitter.events].
    by rewrite lookup_insert_eq.
  - unfold EventEmitter.listeners at 1. cbn [EventEmitter.events].
    rewrite lookup_insert_eq. cbn [from_option id].
    rewrite list_elem_of_filter. by intros [? _].
  - erewrite unsubscribe_listed; [|cbn [EventEmitter.events]; apply lookup_insert_eq].
    cbn [EventEmitter.events]. by rewrite insert_insert_eq, filter_ne_idemp.
  - subst this1. by rewrite unsubscribe_after_on.
  - intros topic' Hne. cbn [EventEmitter.events]. by rewrite lookup_insert_ne.
Qed.
End EmitterClaims.

(** C4, the claim as stated: the first of two listeners throws and the
    second, subscribed to the same topic, is not called. *)
Lemma throwing_listener_stops_publish :
  let throws := λ (cb : Callback) (_ : list Value), Nat.eqb cb 1 in
  let this :=
    (EventEmitter.on "authStateChanged" 2
       (EventEmitter.on "authStateChanged" 1 EventEmitter.new).1).1 in
  EventEmitter.listeners "authStateChanged" this = [1; 2]
  ∧ EventEmitter.emit throws "authStateChanged" [VNull] this []
    = (Throw (CallbackThrew 1), [(1, [VNull])])
  ∧ (2, [VNull]) ∉ (EventEmitter.emit throws "authStateChanged" [VNull] this []).2.
Proof.
  assert (E : EventEmitter.emit (λ (cb : Callback) (_ : list Value), Nat.eqb cb 1)
                "authStateChanged" [VNull]
                (EventEmitter.on "authStateChanged" 2
                   (EventEmitter.on "authStateChanged" 1 EventEmitter.new).1).1 []
              = (Throw (CallbackThrew 1), [(1, [VNull])])) by (vm_compute; reflexivity).
  cbv zeta. rewrite E. split; [vm_compute; reflexivity|]. split; [done|].
  cbn [snd]. rewrite list_elem_of_singleton. congruence.
Qed.

Lemma emit_until_first_throw_witness :
  let throws := λ (cb : Callback) (_ : list Value), Nat.eqb cb 1 in
  let this :=
    (EventEmitter.on "error" 2
       (EventEmitter.on "error" 1
          (EventEmitter.on "error" 3 EventEmitter.new).1).1).1 in
  EventEmitter.listeners "error" this = [3] ++ 1 :: [2]
  ∧ Forall (λ c, throws c [VString "e"] = false) [3]
  ∧ throws 1 [VString "e"] = true
  ∧ EventEmitter.emit throws "error" [VString "e"] this []
    = (Throw (CallbackThrew 1),
       [] ++ EventEmitter.calls_of ([3] ++ [1]) [VString "e"]).
Proof.
  cbv zeta.
  assert (Hl : EventEmitter.listeners "error"
                 (EventEmitter.on "error" 2
                    (EventEmitter.on "error" 1
                       (EventEmitter.on "error" 3 EventEmitter.new).1).1).1
               = [3] ++ 1 :: [2]) by (vm_compute; reflexivity).
  assert (Hq : Forall (λ c : Callback, Nat.eqb c 1 = false) [3])
    by (constructor; [reflexivity | constructor]).
  split; [exact Hl|]. split; [exact Hq|]. split; [reflexivity|].
  exact (emit_until_first_throw (λ cb _, Nat.eqb cb 1) "error" [VString "e"]
           _ [] [3] 1 [2] Hl Hq eq_refl).
Defined.

(** C8, the claim as stated: a handler subscribed behind one that throws
    is not called by the publish that follows its subscription. *)
Lemma new_subscriber_behind_throwing_listener :
  let throws := λ (cb : Callback) (_ : list Value), Nat.eqb cb 1 in
  let before := (EventEmitter.on "error" 1 EventEmitter.new).1 in
  let this := (EventEmitter.on "error" 2 before).1 in
  (EventEmitter.emit throws "error" [VString "boom"] this []).2
  = [(1, [VString "boom"])]
  ∧ (2, [VString "boom"])
    ∉ (EventEmitter.emit throws "error" [VString "boom"] this []).2.
Proof.
  assert (E : (EventEmitter.emit (λ (cb : Callback) (_ : list Value), Nat.eqb cb 1)
                 "error" [VString "boom"]
                 (EventEmitter.on "error" 2
                    (EventEmitter.on "error" 1 EventEmitter.new).1).1 []).2
              = [(1, [VString "boom"])]) by (vm_compute; reflexivity).
  cbv zeta. rewrite E. split; [done|].
  rewrite list_elem_of_singleton. congruence.
Qed.

Lemma subscribe_publish_clear_unsubscribe_witness :
  let before := (EventEmitter.on "error" 3 EventEmitter.new).1 in
  let this1 := (EventEmitter.on "error" 4 before).1 in
  Forall (λ cb, quiet cb [VString "e"] = false) (EventEmitter.listeners "error" before)
  ∧ (EventEmitter.emit quiet "error" [VString "e"] this1 []).2
    = [] ++ EventEmitter.calls_of (EventEmitter.listeners "error" before) [VString "e"]
         ++ [(4, [VString "e"])].
Proof.
  cbv zeta.
  assert (Hq : Forall (λ cb, quiet cb [VString "e"] = false)
                 (EventEmitter.listeners "error"
                    (EventEmitter.on "error" 3 EventEmitter.new).1)).
  { apply Forall_forall. reflexivity. }
  split; [exact Hq|].
  exact (proj1 (subscribe_publish_clear_unsubscribe quiet "error" 4
                  [VString "e"] _ [] Hq)).
Defined.

Lemma unsubscribe_removes_every_registration_witness :
  let this := (EventEmitter.on "loadingStateChanged" 9 EventEmitter.new).1 in
  let this2 := (EventEmitter.on "error" 5 (EventEmitter.on "error" 5 this).1).1 in
  let once := (EventEmitter.unsubscribe (EventEmitter.unsub "error" 5) this2).2 in
  "loadingStateChanged" ≠ "error"
  ∧ EventEmitter.events once !! "loadingStateChanged"
    = EventEmitter.events this !! "loadingStateChanged".
Proof.
  cbv zeta.
  assert (Hne : "loadingStateChanged" ≠ "error") by discriminate.
  split; [exact Hne|].
  exact (proj2 (proj2 (proj2 (proj2 (proj2 (proj2
           (unsubscribe_removes_every_registration "error" 5
              (EventEmitter.on "loadingStateChanged" 9 EventEmitter.new).1))))))
           "loadingStateChanged" Hne).
Defined.

(** *** The interceptor *)

Lemma interceptor_carries b config :
  carries_stored_token b config (ApiClient.interceptor b config).
Proof.
  unfold carries_stored_token, stored_token, ApiClient.interceptor, or_else.
  destruct (getItem StorageKeys.TOKEN b) as [token|]; [|done].
  destruct (truthy token); [|done].
  cbn [headers baseURL url data]. by rewrite lookup_insert_eq.
Qed.

(** C9. Each of the five calls of the API client sends one request: its
    own config passed through the interceptor, which reads the token store
    as it is at the call. With a token stored (a non-empty string, as the
    interceptor tests [if (token)]) the [Authorization] header of the
    request is ["Bearer "] followed by that token, also where the call set
    a header of its own; with none stored the config is sent as it is. *)
Theorem every_request_carries_stored_token
    backend this b redirectUri code state token :
  Forall
    (λ '(after, config),
       after = send (ApiClient.interceptor b config) b
       ∧ requests after = requests b ++ [ApiClient.interceptor b config]
       ∧ carries_stored_token b config (ApiClient.interceptor b config))
    [ ((ApiClient.login backend this redirectUri b).2,
       ApiClient.config_of this "/auth/login"
         (LoginBody (default (origin (location b)) (or_else redirectUri None))) ∅);
      ((ApiClient.handleCallback backend this code state b).2,
       ApiClient.config_of this "/auth/callback" (CallbackBody code state) ∅);
      ((ApiClient.logout backend this b).2,
       ApiClient.config_of this "/auth/logout" NoBody ∅);
      ((ApiClient.verifyToken backend this token b).2,
       ApiClient.config_of this "/verify-token" NoBody
         {[ "Authorization" := "Bearer " +:+ token ]});
      ((ApiClient.getCurrentUser backend this b).2,
       ApiClient.config_of this "/verify-token" NoBody ∅) ].
Proof.
  repeat constructor; apply interceptor_carries.
Qed.

(** *** The browser record *)

Lemma getItem_setItem k v b : getItem k (setItem k v b) = Some v.
Proof. apply lookup_insert_eq. Qed.
Lemma getItem_removeItem k b : getItem k (removeItem k b) = None.
Proof. apply lookup_delete_eq. Qed.
Lemma getItem_set_location k l b : getItem k (set_location l b) = getItem k b.
Proof. reflexivity. Qed.
Lemma getItem_send k r b : getItem k (send r b) = getItem k b.
Proof. reflexivity. Qed.
Lemma getItem_assign_href k u b : getItem k (assign_href u b) = getItem k b.
Proof. reflexivity. Qed.
Lemma location_setItem k v b : location (setItem k v b) = location b.
Proof. reflexivity. Qed.
Lemma location_removeItem k b : location (removeItem k b) = location b.
Proof. reflexivity. Qed.
Lemma location_set_location l b : location (set_location l b) = l.
Proof. reflexivity. Qed.
Lemma location_send r b : location (send r b) = location b.
Proof. reflexivity. Qed.
Lemma requests_setItem k v b : requests (setItem k v b) = requests b.
Proof. reflexivity. Qed.
Lemma requests_removeItem k b : requests (removeItem k b) = requests b.
Proof. reflexivity. Qed.
Lemma requests_set_location l b : requests (set_location l b) = requests b.
Proof. reflexivity. Qed.
Lemma requests_send r b : requests (send r b) = requests b ++ [r].
Proof. reflexivity. Qed.

Create Rewrite HintDb browser.
#[local] Hint Rewrite getItem_setItem getItem_removeItem getItem_set_location
  getItem_send getItem_assign_href location_setItem location_removeItem
  location_set_location location_send requests_setItem requests_removeItem
  requests_set_location requests_send : browser.

#[local] Arguments setItem : simpl never.
#[local] Arguments removeItem : simpl never.
#[local] Arguments set_location : simpl never.
#[local] Arguments send : simpl never.
#[local] Arguments getItem : simpl never.
#[local] Arguments assign_href : simpl never.
#[local] Arguments ApiClient.prepare : simpl never.
#[local] Arguments EventEmitter.emit : simpl never.
#[local] Arguments EventEmitter.on : simpl never.
#[local] Arguments EventEmitter.unsubscribe : simpl never.
#[local] Arguments EventEmitter.clear : simpl never.
#[local] Arguments truthy : simpl never.
#[local] Arguments or_else : simpl never.
#[local] Arguments stored_token : simpl never.

Section VanillaFacts.
Variable throws : Callback → list Value → bool.
Variable backend : Backend.

Import VanillaAuthClient.

(** What the page does with the subscription interface leaves the
    browser and the state fields alone. *)
Lemma run_action_core a w : same_core w (run_action throws a w).2.
Proof.
  destruct a as [cb|cb|cb|u|];
    cbv [run_action onAuthStateChanged onError onLoadingStateChanged destroy
         bind gets call on ret modify same_core];
    repeat case_match; simplify_eq; done.
Qed.

Lemma run_script_core s w : same_core w (run_script throws s w).
Proof.
  revert w. induction s as [|a s IH]; intros w; simpl; [done|].
  destruct (IH (run_action throws a w).2) as (?&?&?&?&?).
  destruct (run_action_core a w) as (?&?&?&?&?).
  unfold same_core. repeat split; congruence.
Qed.

Lemma run_script_browser s w : browser (run_script throws s w) = browser w.
Proof. apply run_script_core. Qed.
Lemma run_script_apiClient s w :
  apiClient (this (run_script throws s w)) = apiClient (this w).
Proof. apply run_script_core. Qed.
Lemma run_script_user s w : user (this (run_script throws s w)) = user (this w).
Proof. apply run_script_core. Qed.
Lemma run_script_isLoading s w :
  isLoading (this (run_script throws s w)) = isLoading (this w).
Proof. apply run_script_core. Qed.
Lemma run_script_error s w : error (this (run_script throws s w)) = error (this w).
Proof. apply run_script_core. Qed.

Hypothesis silent : ∀ cb args, throws cb args = false.

Lemma emit_silent event args ev log :
  EventEmitter.emit throws event args ev log
  = (Normal tt,
     log ++ EventEmitter.calls_of (EventEmitter.listeners event ev) args).
Proof. apply emit_quiet. apply Forall_forall. intros. apply silent. Qed.
End VanillaFacts.

#[local] Hint Rewrite run_script_browser run_script_apiClient run_script_user
  run_script_isLoading run_script_error : browser.

(** The combinators and the setters, unfolded. *)
Ltac unfold_vanilla :=
  unfold VanillaAuthClient.initialize, VanillaAuthClient.handleDirectToken,
    VanillaAuthClient.handleCallback, VanillaAuthClient.checkExistingAuth,
    VanillaAuthClient.login, VanillaAuthClient.logout,
    VanillaAuthClient.getRedirectUri,
    VanillaAuthClient.setLoading, VanillaAuthClient.setError,
    VanillaAuthClient.setUser, VanillaAuthClient.await,
    VanillaAuthClient.emit, VanillaAuthClient.in_browser,
    ApiClient.getCurrentUser, ApiClient.handleCallback, ApiClient.login,
    ApiClient.logout, ApiClient.post, replaceState,
    try_catch_finally, try_catch, bind, gets, modify, settle, ret.

Ltac unfold_react :=
  unfold AuthProvider.effect_client, AuthProvider.effect_auth,
    AuthProvider.handleCallback, AuthProvider.checkAuth,
    AuthProvider.getUserData, and_later, AuthProvider.login, AuthProvider.logout,
    AuthProvider.setIsLoading, AuthProvider.setError, AuthProvider.setUser,
    AuthProvider.setApiClient, AuthProvider.await, AuthProvider.in_browser,
    ApiClient.getCurrentUser, ApiClient.handleCallback, ApiClient.login,
    ApiClient.logout, ApiClient.post, replaceState,
    try_catch_finally, try_catch, bind, gets, modify, settle, ret.

(** Every publish in the goal, by cases on how it completes. *)
Ltac emit_cases :=
  repeat match goal with
         | |- context [EventEmitter.emit ?t ?e ?a ?ev ?l] =>
             destruct (EventEmitter.emit t e a ev l) as [[[]|?] ?]; simpl
         end.

(** Every publish in the goal, when no listener throws. *)
Ltac emit_silently H :=
  repeat (rewrite (emit_silent _ H); simpl).

(** *** Logout *)

(** C1, the claim as stated: the backend refuses the logout call; the
    user stays signed in and the token stays in the store, in the vanilla
    client and in the React provider alike. *)
Lemma failed_logout_keeps_user_and_token :
  let w := (VanillaAuthClient.logout quiet rejecting signed_in_page).2 in
  let r := (AuthProvider.logout rejecting signed_in_app).2 in
  (is_Some (VanillaAuthClient.apiClient (VanillaAuthClient.this signed_in_page))
   ∧ VanillaAuthClient.user (VanillaAuthClient.this w) = Some alice
   ∧ getItem StorageKeys.TOKEN (VanillaAuthClient.browser w) = Some "tok"
   ∧ VanillaAuthClient.error (VanillaAuthClient.this w)
     = Some "Logout failed. Please try again.")
  ∧ (is_Some (AuthProvider.apiClient (AuthProvider.state signed_in_app))
     ∧ AuthProvider.user (AuthProvider.state r) = Some alice
     ∧ getItem StorageKeys.TOKEN (AuthProvider.browser r) = Some "tok"
     ∧ AuthProvider.error (AuthProvider.state r)
       = Some "Logout failed. Please try again.").
Proof.
  cbv zeta. repeat split; try (eexists; reflexivity); vm_compute; reflexivity.
Qed.

(** C1, as amended. With the API client initialised (and, in the vanilla
    client, listeners that do not throw), [logout()] ends with [isLoading]
    false. When the backend call succeeds, [user] is [null] and the token
    store holds no token. When it fails, [error] is the logout-failure
    message, and [user] and the stored token are what they were. *)
Theorem logout_outcome throws backend
    (w : VanillaAuthClient.World) (r : AuthProvider.World) api api' :
  (∀ cb args, throws cb args = false) →
  VanillaAuthClient.apiClient (VanillaAuthClient.this w) = Some api →
  AuthProvider.apiClient (AuthProvider.state r) = Some api' →
  let w' := (VanillaAuthClient.logout throws backend w).2 in
  let r' := (AuthProvider.logout backend r).2 in
  (VanillaAuthClient.isLoading (VanillaAuthClient.this w') = false
   ∧ match auth_logout backend
             (ApiClient.prepare api "/auth/logout" NoBody ∅
                (VanillaAuthClient.browser w)) with
     | Ok _ =>
         VanillaAuthClient.user (VanillaAuthClient.this w') = None
         ∧ getItem StorageKeys.TOKEN (VanillaAuthClient.browser w') = None
     | Failed _ =>
         VanillaAuthClient.error (VanillaAuthClient.this w')
         = Some "Logout failed. Please try again."
         ∧ VanillaAuthClient.user (VanillaAuthClient.this w')
           = VanillaAuthClient.user (VanillaAuthClient.this w)
         ∧ getItem StorageKeys.TOKEN (VanillaAuthClient.browser w')
           = getItem StorageKeys.TOKEN (VanillaAuthClient.browser w)
     end)
  ∧ (AuthProvider.isLoading (AuthProvider.state r') = false
     ∧ match auth_logout backend
               (ApiClient.prepare api' "/auth/logout" NoBody ∅
                  (AuthProvider.browser r)) with
       | Ok _ =>
           AuthProvider.user (AuthProvider.state r') = None
           ∧ getItem StorageKeys.TOKEN (AuthProvider.browser r') = None
       | Failed _ =>
           AuthProvider.error (AuthProvider.state r')
           = Some "Logout failed. Please try again."
           ∧ AuthProvider.user (AuthProvider.state r')
             = AuthProvider.user (AuthProvider.state r)
           ∧ getItem StorageKeys.TOKEN (AuthProvider.browser r')
             = getItem StorageKeys.TOKEN (AuthProvider.browser r)
       end).
Proof.
  intros H Hapi Hapi'. split.
  - unfold_vanilla. rewrite Hapi. simpl. emit_silently H.
    destruct (auth_logout _ _); simpl; emit_silently H;
      autorewrite with browser; simpl; autorewrite with browser; done.
  - unfold_react. rewrite Hapi'. simpl.
    destruct (auth_logout _ _); simpl; autorewrite with browser; done.
Qed.

Lemma logout_outcome_witness :
  let w' := (VanillaAuthClient.logout quiet accepting signed_in_page).2 in
  let r' := (AuthProvider.logout accepting signed_in_app).2 in
  (∀ cb args, quiet cb args = false)
  ∧ VanillaAuthClient.user (VanillaAuthClient.this w') = None
  ∧ getItem StorageKeys.TOKEN (VanillaAuthClient.browser w') = None
  ∧ AuthProvider.user (AuthProvider.state r') = None
  ∧ getItem StorageKeys.TOKEN (AuthProvider.browser r') = None.
Proof.
  cbv zeta.
  pose proof (logout_outcome quiet accepting signed_in_page signed_in_app
                _ _ (λ _ _, eq_refl) eq_refl eq_refl) as [[_ Hv] [_ Hr]].
  cbv zeta in Hv, Hr. simpl in Hv, Hr.
  destruct Hv as [Hv1 Hv2], Hr as [Hr1 Hr2].
  split; [reflexivity|]. auto.
Defined.

(** *** Initialisation with a stored token *)

Lemma or_else_Some x s : or_else x None = Some s → x = Some s ∧ truthy s = true.
Proof.
  unfold or_else. destruct x as [t|]; [|done].
  destruct (truthy t) eqn:E; [|done]. intros [= ->]. done.
Qed.

(** C6. No [token] and no [code] in the URL (absent or empty), a token
    in the store, and a backend that rejects the verification: after
    initialisation [user] is [null], [isLoading] is false, [error] is set
    and the token store is empty. This holds for the vanilla client,
    whatever its listeners do and whatever the page subscribes meanwhile,
    and for the React provider. *)
Theorem stale_token_is_cleared throws backend resolve_url config props b script token status :
  or_else (searchParams_get "token" (search (location b))) None = None →
  or_else (searchParams_get "code" (search (location b))) None = None →
  stored_token b = Some token →
  (∀ request, verify_token backend request = Failed status) →
  let w := (VanillaAuthClient.construct throws backend resolve_url config b script).2 in
  let r := (AuthProvider.mount backend resolve_url props b).2 in
  (VanillaAuthClient.user (VanillaAuthClient.this w) = None
   ∧ VanillaAuthClient.isLoading (VanillaAuthClient.this w) = false
   ∧ is_Some (VanillaAuthClient.error (VanillaAuthClient.this w))
   ∧ getItem StorageKeys.TOKEN (VanillaAuthClient.browser w) = None)
  ∧ (AuthProvider.user (AuthProvider.state r) = None
     ∧ AuthProvider.isLoading (AuthProvider.state r) = false
     ∧ AuthProvider.error (AuthProvider.state r)
       = Some "Authentication failed. Please log in again."
     ∧ getItem StorageKeys.TOKEN (AuthProvider.browser r) = None).
Proof.
  intros Htoken Hcode Hstored Hrej. unfold stored_token in Hstored. split.
  - unfold VanillaAuthClient.construct. unfold_vanilla. simpl.
    rewrite Htoken, Hcode. simpl. rewrite Hstored. simpl. rewrite Hrej. simpl.
    emit_cases; autorewrite with browser; simpl; autorewrite with browser;
      repeat split; eauto.
  - unfold AuthProvider.mount. unfold_react. simpl.
    rewrite Htoken, Hcode. simpl. rewrite Hstored. simpl. rewrite Hrej. simpl.
    autorewrite with browser. done.
Qed.

Lemma stale_token_is_cleared_witness :
  let b := page [] (Some "stale") in
  let throws := λ (cb : Callback) (_ : list Value), Nat.eqb cb 7 in
  let script := [VanillaAuthClient.OnError 7;
                 VanillaAuthClient.OnLoadingStateChanged 7] in
  let w := (VanillaAuthClient.construct throws rejecting sample_resolver vanilla_config b script).2 in
  let r := (AuthProvider.mount rejecting sample_resolver react_props b).2 in
  or_else (searchParams_get "token" (search (location b))) None = None
  ∧ or_else (searchParams_get "code" (search (location b))) None = None
  ∧ stored_token b = Some "stale"
  ∧ (∀ request, verify_token rejecting request = Failed (Some 401))
  ∧ getItem StorageKeys.TOKEN (VanillaAuthClient.browser w) = None
  ∧ getItem StorageKeys.TOKEN (AuthProvider.browser r) = None.
Proof.
  cbv zeta.
  assert (H1 : or_else (searchParams_get "token"
                 (search (location (page [] (Some "stale"))))) None = None)
    by reflexivity.
  assert (H2 : or_else (searchParams_get "code"
                 (search (location (page [] (Some "stale"))))) None = None)
    by reflexivity.
  assert (H3 : stored_token (page [] (Some "stale")) = Some "stale")
    by (vm_compute; reflexivity).
  assert (H4 : ∀ request, verify_token rejecting request = Failed (Some 401))
    by reflexivity.
  pose proof (stale_token_is_cleared (λ cb _, Nat.eqb cb 7) rejecting sample_resolver
                vanilla_config react_props _
                [VanillaAuthClient.OnError 7;
                 VanillaAuthClient.OnLoadingStateChanged 7]
                "stale" (Some 401) H1 H2 H3 H4) as [(_&_&_&Hv) (_&_&_&Hr)].
  auto 10.
Defined.

(** *** Requests and the token store *)

Lemma emit_new throws event args log :
  EventEmitter.emit throws event args EventEmitter.new log = (Normal tt, log).
Proof. unfold EventEmitter.emit, EventEmitter.new. cbn. by rewrite lookup_empty. Qed.

Lemma prepare_set_location this path body own l b :
  ApiClient.prepare this path body own (set_location l b)
  = ApiClient.prepare this path body own b.
Proof. reflexivity. Qed.

#[local] Hint Rewrite prepare_set_location : browser.

Lemma prepare_bearer this path body own b T :
  getItem StorageKeys.TOKEN b = Some T →
  truthy T = true →
  headers (ApiClient.prepare this path body own b) !! "Authorization"
  = Some ("Bearer " +:+ T).
Proof.
  intros Hb HT. unfold ApiClient.prepare.
  pose proof (interceptor_carries b (ApiClient.config_of this path body own)) as Hc.
  unfold carries_stored_token, stored_token, or_else in Hc.
  rewrite Hb, HT in Hc. apply Hc.
Qed.

Lemma prepare_url this path body own b :
  url (ApiClient.prepare this path body own b) = path.
Proof.
  unfold ApiClient.prepare, ApiClient.interceptor.
  destruct (getItem StorageKeys.TOKEN b) as [token|]; [|done].
  by destruct (truthy token).
Qed.

(** *** Initialisation from a URL with a token *)


(** Every use of the resolver [r], every answer of the backend and every
    publish in the goal, by cases. *)
Ltac run_cases r :=
  repeat first
    [ progress emit_cases
    | progress (autorewrite with browser; simpl)
    | match goal with
      | |- context [r ?u ?l] => destruct (r u l); simpl
      | |- context [verify_token ?be ?q] => destruct (verify_token be q); simpl
      | |- context [auth_callback ?be ?q] =>
          destruct (auth_callback be q) as [[? ?]|?]; simpl
      end ].



(** *** Initialisation from a URL with a code *)

(** C5, the claim as stated: the vanilla client, which has no redirect
    paths in its configuration, starts at a URL with [code=C&state=S] and
    the backend rejects the exchange; the URL is not rewritten at all. *)
Lemma rejected_code_leaves_url :
  let b := page [("code", "C"); ("state", "S")] (Some "old") in
  let w := (VanillaAuthClient.construct quiet rejecting sample_resolver vanilla_config b []).2 in
  location (VanillaAuthClient.browser w) = location b
  ∧ search (location (VanillaAuthClient.browser w))
    = [("code", "C"); ("state", "S")].
Proof. cbv zeta. split; vm_compute; reflexivity. Qed.

(** C5, as amended. From a URL with a non-empty [code] parameter [C] and no
    (or an empty) [token] parameter, initialisation sends exactly one
    request, the exchange, with [C] and the [state] parameter (left out
    when absent or empty), and ends with [isLoading] false; this holds
    whatever the listeners do.
    - React provider. On success [user] is set and [replaceState] is called
      with the login-redirect path: if the browser accepts it, the
      returned token is stored, [error] is [null] and the URL is that path
      resolved; if it refuses, the failure handler runs. On failure, and
      in the failure handler: the token store is emptied, [error] is set
      and [replaceState] is called with the unauthorized-redirect path; the
      URL is that path resolved, or unchanged if the browser refuses it.
    - Vanilla client (listeners that do not throw). On success [user] is
      set and [replaceState] is called with the page's pathname: if the
      browser accepts it, the returned token is stored, [error] is [null]
      and the URL is that reference resolved; if it refuses, the token
      store is emptied, [error] is set and the URL is unchanged. On failure
      the token store is emptied, [error] is set and the URL is left as it
      was. *)
Theorem code_exchange_initialisation throws backend resolve_url config props b script C :
  or_else (searchParams_get "token" (search (location b))) None = None →
  or_else (searchParams_get "code" (search (location b))) None = Some C →
  let exchange url :=
    ApiClient.prepare (ApiClient.createApiClient (ApiClient.mkConfig url))
      "/auth/callback"
      (CallbackBody C (or_else (searchParams_get "state" (search (location b))) None))
      ∅ b in
  let w := (VanillaAuthClient.construct throws backend resolve_url config b script).2 in
  let r := (AuthProvider.mount backend resolve_url props b).2 in
  let sent := exchange (VanillaAuthClient.authBackendUrl config) in
  let sent' := exchange (AuthProvider.authBackendUrl props) in
  let failed_url :=
    default (location b)
      (resolve_url (AuthProvider.unauthorizedPath props) (location b)) in
  (requests (AuthProvider.browser r) = requests b ++ [sent']
   ∧ AuthProvider.isLoading (AuthProvider.state r) = false
   ∧ match auth_callback backend sent' with
     | Ok (token, u) =>
         AuthProvider.user (AuthProvider.state r) = Some u
         ∧ match resolve_url (AuthProvider.loginPath props) (location b) with
           | Some l1 =>
               getItem StorageKeys.TOKEN (AuthProvider.browser r) = Some token
               ∧ AuthProvider.error (AuthProvider.state r) = None
               ∧ location (AuthProvider.browser r) = l1
           | None =>
               getItem StorageKeys.TOKEN (AuthProvider.browser r) = None
               ∧ AuthProvider.error (AuthProvider.state r)
                 = Some "Authentication failed. Please try again."
               ∧ location (AuthProvider.browser r) = failed_url
           end
     | Failed _ =>
         AuthProvider.user (AuthProvider.state r) = None
         ∧ getItem StorageKeys.TOKEN (AuthProvider.browser r) = None
         ∧ AuthProvider.error (AuthProvider.state r)
           = Some "Authentication failed. Please try again."
         ∧ location (AuthProvider.browser r) = failed_url
     end)
  ∧ (requests (VanillaAuthClient.browser w) = requests b ++ [sent]
     ∧ VanillaAuthClient.isLoading (VanillaAuthClient.this w) = false
     ∧ ((∀ cb args, throws cb args = false) →
        match auth_callback backend sent with
        | Ok (token, u) =>
            VanillaAuthClient.user (VanillaAuthClient.this w) = Some u
            ∧ match resolve_url (pathname (location b)) (location b) with
              | Some target =>
                  getItem StorageKeys.TOKEN (VanillaAuthClient.browser w) = Some token
                  ∧ VanillaAuthClient.error (VanillaAuthClient.this w) = None
                  ∧ location (VanillaAuthClient.browser w) = target
              | None =>
                  getItem StorageKeys.TOKEN (VanillaAuthClient.browser w) = None
                  ∧ VanillaAuthClient.error (VanillaAuthClient.this w)
                    = Some "Authentication failed. Please try again."
                  ∧ location (VanillaAuthClient.browser w) = location b
              end
        | Failed _ =>
            VanillaAuthClient.user (VanillaAuthClient.this w) = None
            ∧ getItem StorageKeys.TOKEN (VanillaAuthClient.browser w) = None
            ∧ VanillaAuthClient.error (VanillaAuthClient.this w)
              = Some "Authentication failed. Please try again."
            ∧ location (VanillaAuthClient.browser w) = location b
        end)).
Proof.
  intros Htoken Hcode exchange w r sent sent' failed_url.
  subst w r sent sent' failed_url exchange. cbv beta. split.
  - unfold AuthProvider.mount. unfold_react. simpl.
    rewrite Htoken, Hcode. simpl. autorewrite with browser.
    split; [|split].
    + run_cases resolve_url; done.
    + run_cases resolve_url; done.
    + destruct (auth_callback _ _) as [[token u]|]; simpl; autorewrite with browser.
      * destruct (resolve_url (AuthProvider.loginPath props) (location b)); simpl;
          autorewrite with browser; [done|].
        destruct (resolve_url (AuthProvider.unauthorizedPath props) (location b));
          simpl; autorewrite with browser; done.
      * destruct (resolve_url (AuthProvider.unauthorizedPath props) (location b));
          simpl; autorewrite with browser; done.
  - unfold VanillaAuthClient.construct. unfold_vanilla. simpl.
    rewrite Htoken, Hcode. simpl. rewrite !emit_new. simpl.
    split; [|split].
    + run_cases resolve_url; done.
    + run_cases resolve_url; done.
    + intros H. destruct (auth_callback _ _) as [[token u]|]; simpl;
        emit_silently H; autorewrite with browser; simpl; autorewrite with browser.
      * destruct (resolve_url _ _); simpl; emit_silently H;
          autorewrite with browser; simpl; autorewrite with browser; done.
      * done.
Qed.

Lemma code_exchange_initialisation_witness :
  let b := page [("code", "C"); ("state", "S")] None in
  let r := (AuthProvider.mount accepting sample_resolver react_props b).2 in
  let w := (VanillaAuthClient.construct quiet rejecting sample_resolver vanilla_config b []).2 in
  or_else (searchParams_get "token" (search (location b))) None = None
  ∧ or_else (searchParams_get "code" (search (location b))) None = Some "C"
  ∧ (∀ cb args, quiet cb args = false)
  ∧ getItem StorageKeys.TOKEN (AuthProvider.browser r) = Some "fresh"
  ∧ location (AuthProvider.browser r) = mkLocation "https://app.example" "/" []
  ∧ getItem StorageKeys.TOKEN (VanillaAuthClient.browser w) = None.
Proof.
  cbv zeta.
  assert (H1 : ∀ cb args, quiet cb args = false) by reflexivity.
  assert (H2 : or_else (searchParams_get "token"
                 (search (location (page [("code", "C"); ("state", "S")] None))))
                 None = None) by reflexivity.
  assert (H3 : or_else (searchParams_get "code"
                 (search (location (page [("code", "C"); ("state", "S")] None))))
                 None = Some "C") by reflexivity.
  pose proof (code_exchange_initialisation quiet accepting sample_resolver
                vanilla_config react_props _ [] "C" H2 H3) as [(_ & _ & Hr) _].
  pose proof (code_exchange_initialisation quiet rejecting sample_resolver
                vanilla_config react_props _ [] "C" H2 H3) as [_ (_ & _ & Hv)].
  specialize (Hv H1). cbv zeta in Hv, Hr. simpl in Hv, Hr.
  destruct Hr as (_ & Hr1 & _ & Hr2), Hv as (_ & Hv & _).
  split; [exact H2|]. split; [exact H3|]. split; [exact H1|].
  split; [exact Hr1|]. split; [exact Hr2 | exact Hv].
Defined.

(** *** A rejected token and a listener that throws *)

(** C7 at a failing input. The page constructs the vanilla client at a
    URL with [token=T] and subscribes an error listener that throws; the
    backend rejects the verification. In the [catch] of
    [handleDirectToken], [setError] runs before [removeItem]: the listener
    throws out of it, and the rejected token is still in the store when
    initialisation is over. With a listener that returns, the same run
    removes it. *)
Lemma rejected_token_survives_throwing_error_listener :
  let throws := λ (cb : Callback) (_ : list Value), Nat.eqb cb 7 in
  let b := page [("token", "T")] None in
  let run := VanillaAuthClient.construct throws rejecting sample_resolver vanilla_config b
               [VanillaAuthClient.OnError 7] in
  (∀ request, verify_token rejecting request = Failed (Some 401))
  ∧ (url <$> requests (VanillaAuthClient.browser run.2)) = ["/verify-token"]
  ∧ run.1 = Throw (CallbackThrew 7)
  ∧ VanillaAuthClient.calls run.2
    = [(7, [VString "Authentication failed. Please try again."]);
       (7, [VString "Failed to initialize authentication"])]
  ∧ getItem StorageKeys.TOKEN (VanillaAuthClient.browser run.2) = Some "T"
  ∧ getItem StorageKeys.TOKEN
      (VanillaAuthClient.browser
         (VanillaAuthClient.construct quiet rejecting sample_resolver vanilla_config b
            [VanillaAuthClient.OnError 7]).2) = None.
Proof. cbv zeta. repeat split; vm_compute; reflexivity. Qed.

(** *** The subscription interface of the vanilla client *)

(** C3, the claim as stated: a client whose [error] is set; [onError]
    does not call the new listener, and the transition that clears the
    error to [null] is not delivered to it either. *)
Lemma onError_is_not_called_at_subscription :
  let w := (VanillaAuthClient.logout quiet rejecting signed_in_page).2 in
  let subscribed := (VanillaAuthClient.onError 5 w).2 in
  let cleared := (VanillaAuthClient.setError quiet None subscribed).2 in
  VanillaAuthClient.error (VanillaAuthClient.this w)
  = Some "Logout failed. Please try again."
  ∧ VanillaAuthClient.calls subscribed = []
  ∧ EventEmitter.listeners "error"
      (VanillaAuthClient.events (VanillaAuthClient.this subscribed)) = [5]
  ∧ VanillaAuthClient.error (VanillaAuthClient.this cleared) = None
  ∧ VanillaAuthClient.calls cleared = [].
Proof. cbv zeta. repeat split; vm_compute; reflexivity. Qed.

Section Subscription.
Variable throws : Callback → list Value → bool.

Import VanillaAuthClient.

Lemma emit_calls event args w :
  Forall (λ cb, throws cb args = false)
    (EventEmitter.listeners event (events (this w))) →
  emit throws event args w
  = (Normal tt,
     set_calls
       (calls w
        ++ EventEmitter.calls_of
             (EventEmitter.listeners event (events (this w))) args) w).
Proof. intros Hq. unfold emit. by rewrite emit_quiet. Qed.

(** C3, as amended. [onAuthStateChanged] and [onLoadingStateChanged]
    call the new listener once, with the current value, and register it
    if that call returns; if the call throws, the exception leaves the
    method and the listener is not registered. [onError] registers the
    listener without calling it. From then
    on every [setUser] and [setLoading] calls the listeners of its topic
    with the new value, and every [setError] with a non-empty message
    calls the error listeners with it, as long as no listener of the
    topic throws; a [setError(null)] is not published. After [destroy()]
    a publish on any topic calls nothing. *)
Theorem subscription_contract callback w :
  let auth := onAuthStateChanged throws callback w in
  let loading := onLoadingStateChanged throws callback w in
  let err := onError callback w in
  calls auth.2 = calls w ++ [(callback, [user_value (user (this w))])]
  ∧ calls loading.2 = calls w ++ [(callback, [VBool (isLoading (this w))])]
  ∧ calls err.2 = calls w
  ∧ (throws callback [user_value (user (this w))] = false →
     auth.1 = Normal (EventEmitter.unsub "authStateChanged" callback)
     ∧ EventEmitter.listeners "authStateChanged" (events (this auth.2))
       = EventEmitter.listeners "authStateChanged" (events (this w)) ++ [callback])
  ∧ (throws callback [VBool (isLoading (this w))] = false →
     loading.1 = Normal (EventEmitter.unsub "loadingStateChanged" callback)
     ∧ EventEmitter.listeners "loadingStateChanged" (events (this loading.2))
       = EventEmitter.listeners "loadingStateChanged" (events (this w)) ++ [callback])
  ∧ (err.1 = Normal (EventEmitter.unsub "error" callback)
     ∧ EventEmitter.listeners "error" (events (this err.2))
       = EventEmitter.listeners "error" (events (this w)) ++ [callback])
  ∧ (∀ later u,
       Forall (λ cb, throws cb [user_value u] = false)
         (EventEmitter.listeners "authStateChanged" (events (this later))) →
       user (this (setUser throws u later).2) = u
       ∧ calls (setUser throws u later).2
         = calls later
           ++ EventEmitter.calls_of
                (EventEmitter.listeners "authStateChanged" (events (this later)))
                [user_value u])
  ∧ (∀ later l,
       Forall (λ cb, throws cb [VBool l] = false)
         (EventEmitter.listeners "loadingStateChanged" (events (this later))) →
       isLoading (this (setLoading throws l later).2) = l
       ∧ calls (setLoading throws l later).2
         = calls later
           ++ EventEmitter.calls_of
                (EventEmitter.listeners "loadingStateChanged" (events (this later)))
                [VBool l])
  ∧ (∀ later e,
       truthy e = true →
       Forall (λ cb, throws cb [VString e] = false)
         (EventEmitter.listeners "error" (events (this later))) →
       error (this (setError throws (Some e) later).2) = Some e
       ∧ calls (setError throws (Some e) later).2
         = calls later
           ++ EventEmitter.calls_of
                (EventEmitter.listeners "error" (events (this later)))
                [VString e])
  ∧ (∀ later,
       error (this (setError throws None later).2) = None
       ∧ calls (setError throws None later).2 = calls later)
  ∧ (∀ later event args,
       emit throws event args (destroy later).2 = (Normal tt, (destroy later).2))
  ∧ (throws callback [user_value (user (this w))] = true →
     auth.1 = Throw (CallbackThrew callback)
     ∧ events (this auth.2) = events (this w))
  ∧ (throws callback [VBool (isLoading (this w))] = true →
     loading.1 = Throw (CallbackThrew callback)
     ∧ events (this loading.2) = events (this w)).
Proof.
  cbv zeta. repeat apply conj.
  - unfold onAuthStateChanged, bind, gets, call, on. cbn [fst snd].
    destruct (throws callback _); [done|].
    by destruct (EventEmitter.on _ _ _).
  - unfold onLoadingStateChanged, bind, gets, call, on. cbn [fst snd].
    destruct (throws callback _); [done|].
    by destruct (EventEmitter.on _ _ _).
  - unfold onError, on. by destruct (EventEmitter.on _ _ _).
  - intros Hq. unfold onAuthStateChanged, bind, gets, call, on. cbn [fst snd].
    rewrite Hq. cbn [calls set_calls this events].
    pose proof (on_listeners "authStateChanged" callback (events (this w))) as Hl.
    pose proof (on_returns "authStateChanged" callback (events (this w))) as Hr.
    destruct (EventEmitter.on _ _ _) as [ev u]. simpl in *. by subst.
  - intros Hq. unfold onLoadingStateChanged, bind, gets, call, on. cbn [fst snd].
    rewrite Hq. cbn [calls set_calls this events].
    pose proof (on_listeners "loadingStateChanged" callback (events (this w))) as Hl.
    pose proof (on_returns "loadingStateChanged" callback (events (this w))) as Hr.
    destruct (EventEmitter.on _ _ _) as [ev u]. simpl in *. by subst.
  - unfold onError, on.
    pose proof (on_returns "error" callback (events (this w))) as Hr.
    destruct (EventEmitter.on _ _ _) as [ev u]. simpl in *. by subst.
  - unfold onError, on.
    pose proof (on_listeners "error" callback (events (this w))) as Hl.
    destruct (EventEmitter.on _ _ _) as [ev u]. simpl in *. by subst.
  - intros later u Hq. unfold setUser, bind, modify.
    by rewrite emit_calls.
  - intros later l Hq. unfold setLoading, bind, modify.
    by rewrite emit_calls.
  - intros later e He Hq. unfold setError, bind, modify. rewrite He.
    by rewrite emit_calls.
  - done.
  - intros later event args. unfold emit, destroy, modify.
    cbn [snd this on_this set_events events calls].
    by rewrite emit_clear.
  - intros Ht. unfold onAuthStateChanged, bind, gets, call. cbn [fst snd].
    by rewrite Ht.
  - intros Ht. unfold onLoadingStateChanged, bind, gets, call. cbn [fst snd].
    by rewrite Ht.
Qed.
End Subscription.

Lemma subscription_contract_witness :
  let w := (VanillaAuthClient.onAuthStateChanged quiet 1 signed_in_page).2 in
  let w' := (VanillaAuthClient.setUser quiet None w).2 in
  quiet 1 [VanillaAuthClient.user_value (Some alice)] = false
  ∧ Forall (λ cb, quiet cb [VanillaAuthClient.user_value None] = false)
      (EventEmitter.listeners "authStateChanged"
         (VanillaAuthClient.events (VanillaAuthClient.this w)))
  ∧ EventEmitter.listeners "authStateChanged"
      (VanillaAuthClient.events (VanillaAuthClient.this w)) = [] ++ [1]
  ∧ VanillaAuthClient.calls w = [] ++ [(1, [VUser alice])]
  ∧ VanillaAuthClient.user (VanillaAuthClient.this w') = None.
Proof.
  cbv zeta.
  assert (H1 : quiet 1 [VanillaAuthClient.user_value (Some alice)] = false)
    by reflexivity.
  assert (H2 : Forall (λ cb, quiet cb [VanillaAuthClient.user_value None] = false)
                 (EventEmitter.listeners "authStateChanged"
                    (VanillaAuthClient.events (VanillaAuthClient.this
                       (VanillaAuthClient.onAuthStateChanged quiet 1 signed_in_page).2))))
    by (apply Forall_forall; reflexivity).
  pose proof (subscription_contract quiet 1 signed_in_page)
    as (Ha & _ & _ & Hreg & _ & _ & Hset & _).
  destruct (Hreg H1) as [_ Hl].
  destruct (Hset _ None H2) as [Hu _].
  split; [exact H1|]. split; [exact H2|].
  split; [exact Hl|]. split; [exact Ha|]. exact Hu.
Defined.

(** * Further properties of the code *)

(** ** The emitter *)

Section EmitterExtras.
Variable throws : Callback → list Value → bool.

Lemma filter_ne_absent (callback : Callback) (l : list Callback) :
  callback ∉ l → filter (λ cb, cb ≠ callback) l = l.
Proof.
  induction l as [|x l IH]; [done|]. intros Hn.
  apply not_elem_of_cons in Hn as [Hx Hl].
  rewrite filter_cons_True by congruence. by rewrite IH.
Qed.

(** X1. [clear(topic)] with a non-empty topic removes the listeners of
    that topic only: a publish on it calls nothing and completes, and every
    other topic keeps its listeners. *)
Theorem clear_topic_only topic this args log :
  truthy topic = true →
  EventEmitter.emit throws topic args (EventEmitter.clear (Some topic) this) log
  = (Normal tt, log)
  ∧ EventEmitter.listeners topic (EventEmitter.clear (Some topic) this) = []
  ∧ (∀ topic', topic' ≠ topic →
       EventEmitter.events (EventEmitter.clear (Some topic) this) !! topic'
       = EventEmitter.events this !! topic').
Proof.
  intros Ht. unfold EventEmitter.clear, EventEmitter.emit, EventEmitter.listeners.
  rewrite Ht. cbn [EventEmitter.events]. rewrite lookup_delete_eq.
  split; [done|]. split; [done|]. intros topic' Hne. by rewrite lookup_delete_ne.
Qed.

(** X2. [clear("")]: the empty topic is falsy, so every topic is cleared,
    as with [clear()]; a listener of any other topic is no longer called. *)
Theorem clear_empty_topic_clears_all topic args this log :
  EventEmitter.clear (Some "") this = EventEmitter.clear None this
  ∧ EventEmitter.emit throws topic args (EventEmitter.clear (Some "") this) log
    = (Normal tt, log).
Proof. split; [done|]. exact (emit_clear throws topic args this log). Qed.

(** X3. An unsubscribe function called after its topic was cleared (by
    [clear()], by [clear(topic)], or by [destroy()] on the vanilla client)
    throws a [TypeError] and changes nothing. *)
Theorem unsubscribe_after_clear_throws topic handler this callback w :
  let this1 := (EventEmitter.on topic handler this).1 in
  let u := (EventEmitter.on topic handler this).2 in
  EventEmitter.unsubscribe u (EventEmitter.clear None this1)
  = (Throw TypeError, EventEmitter.clear None this1)
  ∧ (truthy topic = true →
     EventEmitter.unsubscribe u (EventEmitter.clear (Some topic) this1)
     = (Throw TypeError, EventEmitter.clear (Some topic) this1))
  ∧ let subscribed := VanillaAuthClient.onAuthStateChanged throws callback w in
    let destroyed := (VanillaAuthClient.destroy subscribed.2).2 in
    ∀ u', subscribed.1 = Normal u' →
      VanillaAuthClient.run_action throws (VanillaAuthClient.Unsubscribe u') destroyed
      = (Throw TypeError, destroyed).
Proof.
  cbv zeta. rewrite (on_returns topic handler this). split; [|split].
  - unfold EventEmitter.unsubscribe, EventEmitter.clear.
    cbn [EventEmitter.events]. by rewrite lookup_empty.
  - intros Ht. unfold EventEmitter.unsubscribe, EventEmitter.clear. rewrite Ht.
    cbn [EventEmitter.events]. by rewrite lookup_delete_eq.
  - intros u'. unfold VanillaAuthClient.onAuthStateChanged, VanillaAuthClient.call,
      VanillaAuthClient.on, VanillaAuthClient.destroy, bind, gets, modify.
    cbn [fst snd]. destruct (throws callback _); [done|].
    pose proof (on_returns "authStateChanged" callback
                  (VanillaAuthClient.events (VanillaAuthClient.this
                     (VanillaAuthClient.set_calls
                        (VanillaAuthClient.calls w
                         ++ [(callback,
                              [VanillaAuthClient.user_value
                                 (VanillaAuthClient.user (VanillaAuthClient.this w))])])
                        w)))) as Hr.
    destruct (EventEmitter.on _ _ _) as [ev u0]. cbn [fst snd] in *. subst u0.
    intros [= <-]. unfold VanillaAuthClient.run_action.
    unfold EventEmitter.unsubscribe, EventEmitter.clear.
    cbn [VanillaAuthClient.this VanillaAuthClient.on_this VanillaAuthClient.set_events
         VanillaAuthClient.events EventEmitter.events].
    rewrite lookup_empty. done.
Qed.

(** X4. A handler subscribed twice to a topic is called twice by each
    publish, after the listeners registered before it, when none throws. *)
Theorem double_subscription_is_called_twice topic handler args this log :
  Forall (λ cb, throws cb args = false) (EventEmitter.listeners topic this) →
  throws handler args = false →
  let twice :=
    (EventEmitter.on topic handler (EventEmitter.on topic handler this).1).1 in
  EventEmitter.emit throws topic args twice log
  = (Normal tt,
     log ++ EventEmitter.calls_of (EventEmitter.listeners topic this) args
         ++ [(handler, args); (handler, args)]).
Proof.
  intros Hq Hh twice. subst twice.
  rewrite emit_quiet; rewrite !on_listeners.
  - unfold EventEmitter.calls_of. by rewrite !fmap_app, <- !app_assoc.
  - rewrite !Forall_app. repeat split; [done| |]; by repeat constructor.
Qed.

(** X5. Subscribing a handler that was not registered on the topic and
    calling the returned unsubscribe function gives back the listeners the
    topic had, and leaves every other topic as it was. *)
Theorem subscribe_unsubscribe_round_trip topic handler this :
  handler ∉ EventEmitter.listeners topic this →
  let this1 := (EventEmitter.on topic handler this).1 in
  let u := (EventEmitter.on topic handler this).2 in
  (EventEmitter.unsubscribe u this1).1 = Normal tt
  ∧ EventEmitter.listeners topic (EventEmitter.unsubscribe u this1).2
    = EventEmitter.listeners topic this
  ∧ (∀ topic', topic' ≠ topic →
       EventEmitter.events (EventEmitter.unsubscribe u this1).2 !! topic'
       = EventEmitter.events this !! topic').
Proof.
  intros Hn this1 u. subst this1 u. rewrite on_returns, unsubscribe_after_on.
  cbn [fst snd]. split; [done|]. split.
  - unfold EventEmitter.listeners at 1. cbn [EventEmitter.events].
    rewrite lookup_insert_eq. cbn [from_option id]. by apply filter_ne_absent.
  - intros topic' Hne. cbn [EventEmitter.events]. by rewrite lookup_insert_ne.
Qed.
End EmitterExtras.

Lemma clear_topic_only_witness :
  let this := (EventEmitter.on "error" 1
                 (EventEmitter.on "authStateChanged" 2 EventEmitter.new).1).1 in
  truthy "error" = true
  ∧ "authStateChanged" ≠ "error"
  ∧ EventEmitter.listeners "error" (EventEmitter.clear (Some "error") this) = []
  ∧ EventEmitter.events (EventEmitter.clear (Some "error") this) !! "authStateChanged"
    = EventEmitter.events this !! "authStateChanged".
Proof.
  cbv zeta.
  assert (H1 : truthy "error" = true) by reflexivity.
  assert (H2 : "authStateChanged" ≠ "error") by discriminate.
  pose proof (clear_topic_only quiet "error"
                (EventEmitter.on "error" 1
                   (EventEmitter.on "authStateChanged" 2 EventEmitter.new).1).1
                [] [] H1) as (_ & Hl & Ho).
  split; [exact H1|]. split; [exact H2|]. split; [exact Hl|].
  exact (Ho "authStateChanged" H2).
Defined.

Lemma unsubscribe_after_clear_throws_witness :
  let this1 := (EventEmitter.on "error" 3 EventEmitter.new).1 in
  truthy "error" = true
  ∧ EventEmitter.unsubscribe (EventEmitter.unsub "error" 3)
      (EventEmitter.clear (Some "error") this1)
    = (Throw TypeError, EventEmitter.clear (Some "error") this1).
Proof.
  cbv zeta.
  assert (H1 : truthy "error" = true) by reflexivity.
  split; [exact H1|].
  exact (proj1 (proj2 (unsubscribe_after_clear_throws quiet "error" 3
                         EventEmitter.new 0 signed_in_page)) H1).
Defined.

Lemma double_subscription_is_called_twice_witness :
  let this := (EventEmitter.on "error" 1 EventEmitter.new).1 in
  Forall (λ cb, quiet cb [VString "e"] = false) (EventEmitter.listeners "error" this)
  ∧ quiet 2 [VString "e"] = false
  ∧ EventEmitter.emit quiet "error" [VString "e"]
      (EventEmitter.on "error" 2 (EventEmitter.on "error" 2 this).1).1 []
    = (Normal tt,
       [] ++ EventEmitter.calls_of (EventEmitter.listeners "error" this) [VString "e"]
          ++ [(2, [VString "e"]); (2, [VString "e"])]).
Proof.
  cbv zeta.
  assert (H1 : Forall (λ cb, quiet cb [VString "e"] = false)
                 (EventEmitter.listeners "error"
                    (EventEmitter.on "error" 1 EventEmitter.new).1))
    by (apply Forall_forall; reflexivity).
  assert (H2 : quiet 2 [VString "e"] = false) by reflexivity.
  split; [exact H1|]. split; [exact H2|].
  exact (double_subscription_is_called_twice quiet "error" 2 [VString "e"] _ [] H1 H2).
Defined.

Lemma subscribe_unsubscribe_round_trip_witness :
  let this := (EventEmitter.on "error" 1 EventEmitter.new).1 in
  (2 ∉ EventEmitter.listeners "error" this)
  ∧ EventEmitter.listeners "error"
      (EventEmitter.unsubscribe (EventEmitter.unsub "error" 2)
         (EventEmitter.on "error" 2 this).1).2
    = EventEmitter.listeners "error" this.
Proof.
  cbv zeta.
  assert (H1 : 2 ∉ EventEmitter.listeners "error"
                     (EventEmitter.on "error" 1 EventEmitter.new).1).
  { assert (E : EventEmitter.listeners "error"
                  (EventEmitter.on "error" 1 EventEmitter.new).1 = [1])
      by (vm_compute; reflexivity).
    rewrite E, list_elem_of_singleton. lia. }
  split; [exact H1|].
  exact (proj1 (proj2 (subscribe_unsubscribe_round_trip "error" 2 _ H1))).
Defined.

(** ** The API client *)

Lemma interceptor_data b config :
  data (ApiClient.interceptor b config) = data config
  ∧ url (ApiClient.interceptor b config) = url config
  ∧ baseURL (ApiClient.interceptor b config) = baseURL config.
Proof.
  unfold ApiClient.interceptor.
  destruct (getItem StorageKeys.TOKEN b) as [token|]; [|done].
  by destruct (truthy token).
Qed.

Lemma or_else_None_Some s : or_else (Some s) None = None → s = "".
Proof.
  unfold or_else, truthy. destruct (String.eqb s "") eqn:E; [|done].
  intros _. by apply String.eqb_eq.
Qed.

(** X6. [verifyToken(token)] sends one request to [/verify-token]. When a
    token is stored, the request carries the stored token, not the
    argument: the interceptor overwrites the header the call has set. Only
    with no token stored is the argument sent. *)
Theorem verifyToken_sends_stored_token backend this token b :
  let request :=
    ApiClient.prepare this "/verify-token" NoBody
      {[ "Authorization" := "Bearer " +:+ token ]} b in
  (ApiClient.verifyToken backend this token b).2 = send request b
  ∧ url request = "/verify-token"
  ∧ headers request !! "Authorization"
    = Some ("Bearer " +:+ default token (stored_token b)).
Proof.
  cbv zeta. split; [done|]. unfold ApiClient.prepare.
  split; [apply interceptor_data|].
  pose proof (interceptor_carries b
                (ApiClient.config_of this "/verify-token" NoBody
                   {[ "Authorization" := "Bearer " +:+ token ]})) as Hc.
  unfold carries_stored_token in Hc.
  destruct (stored_token b) as [stored|]; cbn [from_option id].
  - apply Hc.
  - rewrite Hc. unfold ApiClient.config_of. cbn [headers].
    apply lookup_union_Some_l. apply lookup_singleton_eq.
Qed.

(** X8. [login(redirectUri)] posts [redirect_uri]: the argument when it is
    a non-empty string, and [window.location.origin] when the argument is
    left out or is the empty string. *)
Theorem login_redirect_uri_default backend this redirectUri b :
  ∃ request,
    requests (ApiClient.login backend this redirectUri b).2
    = requests b ++ [request]
    ∧ url request = "/auth/login"
    ∧ data request
      = LoginBody match redirectUri with
                  | Some uri => if truthy uri then uri else origin (location b)
                  | None => origin (location b)
                  end.
Proof.
  eexists. split; [reflexivity|]. unfold ApiClient.prepare.
  split; [apply interceptor_data|].
  rewrite (proj1 (interceptor_data b _)). unfold ApiClient.config_of, or_else.
  cbn [data]. destruct redirectUri as [uri|]; [|done]. by destruct (truthy uri).
Qed.

(** ** The two clients *)

Lemma navigation_setItem k v b : navigation (setItem k v b) = navigation b.
Proof. reflexivity. Qed.
Lemma navigation_removeItem k b : navigation (removeItem k b) = navigation b.
Proof. reflexivity. Qed.
Lemma navigation_set_location l b : navigation (set_location l b) = navigation b.
Proof. reflexivity. Qed.
Lemma navigation_send r b : navigation (send r b) = navigation b.
Proof. reflexivity. Qed.
Lemma navigation_assign_href u b : navigation (assign_href u b) = Some u.
Proof. reflexivity. Qed.
Lemma location_assign_href u b : location (assign_href u b) = location b.
Proof. reflexivity. Qed.
Lemma requests_assign_href u b : requests (assign_href u b) = requests b.
Proof. reflexivity. Qed.
Lemma getItem_setItem_ne k k' v b : k ≠ k' → getItem k (setItem k' v b) = getItem k b.
Proof. intros. by apply lookup_insert_ne. Qed.
Lemma getItem_removeItem_ne k k' b : k ≠ k' → getItem k (removeItem k' b) = getItem k b.
Proof. intros. by apply lookup_delete_ne. Qed.

#[local] Hint Rewrite navigation_setItem navigation_removeItem
  navigation_set_location navigation_send navigation_assign_href
  location_assign_href requests_assign_href : browser.

Lemma app_empty_l (o p : string) : o +:+ p = "" → o = "".
Proof. by destruct o. Qed.

Lemma redirect_or_origin (o p : string) :
  default o (or_else (Some (o +:+ p)) None) = o +:+ p.
Proof.
  destruct (or_else (Some (o +:+ p)) None) as [s|] eqn:E; cbn [from_option id].
  - by apply or_else_Some in E as [[= ->] _].
  - apply or_else_None_Some in E. rewrite E. by apply app_empty_l in E.
Qed.

Lemma origin_or_origin (o : string) : default o (or_else (Some o) None) = o.
Proof.
  destruct (or_else (Some o) None) as [s|] eqn:E; cbn [from_option id]; [|done].
  by apply or_else_Some in E as [[= ->] _].
Qed.

(** X9. Without an API client, [login()] and [logout()] only record
    ["Authentication not initialized"] in [error]: no request is sent, the
    token store and the URL are not touched, [user] and [isLoading] stay as
    they were. In the vanilla client this holds whatever the listeners do. *)
Theorem actions_without_client throws backend
    (w : VanillaAuthClient.World) (r : AuthProvider.World) :
  VanillaAuthClient.apiClient (VanillaAuthClient.this w) = None →
  AuthProvider.apiClient (AuthProvider.state r) = None →
  Forall
    (λ w',
       VanillaAuthClient.browser w' = VanillaAuthClient.browser w
       ∧ VanillaAuthClient.error (VanillaAuthClient.this w')
         = Some "Authentication not initialized"
       ∧ VanillaAuthClient.user (VanillaAuthClient.this w')
         = VanillaAuthClient.user (VanillaAuthClient.this w)
       ∧ VanillaAuthClient.isLoading (VanillaAuthClient.this w')
         = VanillaAuthClient.isLoading (VanillaAuthClient.this w))
    [ (VanillaAuthClient.login throws backend w).2;
      (VanillaAuthClient.logout throws backend w).2 ]
  ∧ Forall
      (λ r',
         AuthProvider.browser r' = AuthProvider.browser r
         ∧ AuthProvider.error (AuthProvider.state r')
           = Some "Authentication not initialized"
         ∧ AuthProvider.user (AuthProvider.state r')
           = AuthProvider.user (AuthProvider.state r)
         ∧ AuthProvider.isLoading (AuthProvider.state r')
           = AuthProvider.isLoading (AuthProvider.state r))
      [ (AuthProvider.login backend r).2; (AuthProvider.logout backend r).2 ].
Proof.
  intros Hw Hr. split.
  - repeat constructor; unfold_vanilla; rewrite Hw; simpl; emit_cases; done.
  - repeat constructor; unfold_react; rewrite Hr; simpl; done.
Qed.

Lemma actions_without_client_witness :
  let w := VanillaAuthClient.mkWorld (page [] (Some "tok")) VanillaAuthClient.fresh [] [] in
  let r := AuthProvider.mkWorld (page [] (Some "tok")) AuthProvider.initial in
  VanillaAuthClient.apiClient (VanillaAuthClient.this w) = None
  ∧ AuthProvider.apiClient (AuthProvider.state r) = None
  ∧ VanillaAuthClient.browser (VanillaAuthClient.logout quiet accepting w).2
    = VanillaAuthClient.browser w
  ∧ AuthProvider.browser (AuthProvider.login accepting r).2 = AuthProvider.browser r.
Proof.
  cbv zeta.
  pose proof (actions_without_client quiet accepting
                (VanillaAuthClient.mkWorld (page [] (Some "tok"))
                   VanillaAuthClient.fresh [] [])
                (AuthProvider.mkWorld (page [] (Some "tok")) AuthProvider.initial)
                eq_refl eq_refl) as [Hv Hr].
  apply Forall_cons in Hv as [_ Hv]. apply Forall_cons in Hv as [(Hv & _) _].
  apply Forall_cons in Hr as [(Hr & _) _].
  split; [reflexivity|]. split; [reflexivity|]. split; [exact Hv | exact Hr].
Defined.



(** X11. No [token] and no [code] in the URL (absent or empty) and no
    token in the store (none, or the empty string): initialisation sends
    no request and settles at once with [user] [null], [isLoading] false
    and [error] [null]; the browser is left as it was and, in the vanilla
    client, no listener is called. *)
Theorem anonymous_settles_without_request throws backend resolve_url config props b script :
  or_else (searchParams_get "token" (search (location b))) None = None →
  or_else (searchParams_get "code" (search (location b))) None = None →
  stored_token b = None →
  VanillaAuthClient.construct throws backend resolve_url config b script
  = (Normal tt,
     VanillaAuthClient.mkWorld b
       (VanillaAuthClient.mk
          (Some (ApiClient.createApiClient
                   (ApiClient.mkConfig (VanillaAuthClient.authBackendUrl config))))
          None false None EventEmitter.new)
       [] script)
  ∧ AuthProvider.mount backend resolve_url props b
    = (Normal tt,
       AuthProvider.mkWorld b
         (AuthProvider.mkState None false None
            (Some (ApiClient.createApiClient
                     (ApiClient.mkConfig (AuthProvider.authBackendUrl props)))))).
Proof.
  intros Htoken Hcode Hstored. unfold stored_token in Hstored. split.
  - unfold VanillaAuthClient.construct. unfold_vanilla. simpl.
    rewrite Htoken, Hcode. simpl. rewrite Hstored. simpl.
    rewrite emit_new. by destruct b.
  - unfold AuthProvider.mount. unfold_react. simpl.
    rewrite Htoken, Hcode. simpl. rewrite Hstored. simpl. by destruct b.
Qed.

Lemma anonymous_settles_without_request_witness :
  let b := page [("token", "")] (Some "") in
  or_else (searchParams_get "token" (search (location b))) None = None
  ∧ or_else (searchParams_get "code" (search (location b))) None = None
  ∧ stored_token b = None
  ∧ (AuthProvider.mount rejecting sample_resolver react_props b).1 = Normal tt
  ∧ (VanillaAuthClient.construct quiet rejecting sample_resolver vanilla_config b []).1 = Normal tt.
Proof.
  cbv zeta.
  assert (H1 : or_else (searchParams_get "token"
                 (search (location (page [("token", "")] (Some ""))))) None = None)
    by reflexivity.
  assert (H2 : or_else (searchParams_get "code"
                 (search (location (page [("token", "")] (Some ""))))) None = None)
    by reflexivity.
  assert (H3 : stored_token (page [("token", "")] (Some "")) = None)
    by (vm_compute; reflexivity).
  pose proof (anonymous_settles_without_request quiet rejecting sample_resolver vanilla_config
                react_props _ [] H1 H2 H3) as [Hv Hr].
  split; [exact H1|]. split; [exact H2|]. split; [exact H3|].
  split; [by rewrite Hr | by rewrite Hv].
Defined.

(** X12. No [token] and no [code] in the URL, a token [t] in the store and
    a backend that accepts the verification with user data [u]:
    initialisation sends one request, the verification carrying [t], and
    settles with [user] [u], [isLoading] false and [error] [null]; the
    token stays in the store and the URL is not rewritten. (Vanilla:
    listeners that do not throw.) *)
Theorem stored_token_is_verified throws backend resolve_url config props b script t u :
  (∀ cb args, throws cb args = false) →
  or_else (searchParams_get "token" (search (location b))) None = None →
  or_else (searchParams_get "code" (search (location b))) None = None →
  stored_token b = Some t →
  (∀ request, verify_token backend request = Ok u) →
  let verification url :=
    ApiClient.prepare (ApiClient.createApiClient (ApiClient.mkConfig url))
      "/verify-token" NoBody ∅ b in
  let w := (VanillaAuthClient.construct throws backend resolve_url config b script).2 in
  let r := (AuthProvider.mount backend resolve_url props b).2 in
  (headers (verification (VanillaAuthClient.authBackendUrl config)) !! "Authorization"
   = Some ("Bearer " +:+ t)
   ∧ requests (VanillaAuthClient.browser w)
     = requests b ++ [verification (VanillaAuthClient.authBackendUrl config)]
   ∧ VanillaAuthClient.user (VanillaAuthClient.this w) = Some u
   ∧ VanillaAuthClient.isLoading (VanillaAuthClient.this w) = false
   ∧ VanillaAuthClient.error (VanillaAuthClient.this w) = None
   ∧ localStorage (VanillaAuthClient.browser w) = localStorage b
   ∧ location (VanillaAuthClient.browser w) = location b)
  ∧ (requests (AuthProvider.browser r)
     = requests b ++ [verification (AuthProvider.authBackendUrl props)]
     ∧ AuthProvider.user (AuthProvider.state r) = Some u
     ∧ AuthProvider.isLoading (AuthProvider.state r) = false
     ∧ AuthProvider.error (AuthProvider.state r) = None
     ∧ localStorage (AuthProvider.browser r) = localStorage b
     ∧ location (AuthProvider.browser r) = location b).
Proof.
  intros H Htoken Hcode Hstored Hok. cbv zeta. split.
  - split.
    { unfold ApiClient.prepare.
      pose proof (interceptor_carries b
                    (ApiClient.config_of
                       (ApiClient.createApiClient
                          (ApiClient.mkConfig (VanillaAuthClient.authBackendUrl config)))
                       "/verify-token" NoBody ∅)) as Hc.
      unfold carries_stored_token in Hc. rewrite Hstored in Hc. apply Hc. }
    unfold stored_token in Hstored.
    unfold VanillaAuthClient.construct. unfold_vanilla. simpl.
    rewrite Htoken, Hcode. simpl. rewrite Hstored. simpl. rewrite Hok. simpl.
    emit_silently H. autorewrite with browser. simpl. autorewrite with browser.
    done.
  - unfold stored_token in Hstored.
    unfold AuthProvider.mount. unfold_react. simpl.
    rewrite Htoken, Hcode. simpl. rewrite Hstored. simpl. rewrite Hok. simpl.
    autorewrite with browser. done.
Qed.

Lemma stored_token_is_verified_witness :
  let b := page [] (Some "tok") in
  let w := (VanillaAuthClient.construct quiet accepting sample_resolver vanilla_config b []).2 in
  let r := (AuthProvider.mount accepting sample_resolver react_props b).2 in
  (∀ cb args, quiet cb args = false)
  ∧ or_else (searchParams_get "token" (search (location b))) None = None
  ∧ or_else (searchParams_get "code" (search (location b))) None = None
  ∧ stored_token b = Some "tok"
  ∧ (∀ request, verify_token accepting request = Ok alice)
  ∧ VanillaAuthClient.user (VanillaAuthClient.this w) = Some alice
  ∧ AuthProvider.user (AuthProvider.state r) = Some alice.
Proof.
  cbv zeta.
  assert (H1 : ∀ cb args, quiet cb args = false) by reflexivity.
  assert (H2 : or_else (searchParams_get "token"
                 (search (location (page [] (Some "tok"))))) None = None)
    by reflexivity.
  assert (H3 : or_else (searchParams_get "code"
                 (search (location (page [] (Some "tok"))))) None = None)
    by reflexivity.
  assert (H4 : stored_token (page [] (Some "tok")) = Some "tok")
    by (vm_compute; reflexivity).
  assert (H5 : ∀ request, verify_token accepting request = Ok alice)
    by reflexivity.
  pose proof (stored_token_is_verified quiet accepting sample_resolver vanilla_config react_props
                _ [] "tok" alice H1 H2 H3 H4 H5) as [(_&_&Hv&_) (_&Hr&_)].
  auto 10.
Defined.

(** X13. The page of [examples/vanilla-js/index.html] subscribes an auth
    listener, a loading listener and an error listener right after
    constructing the client. With a stored token and no callback parameter
    in the URL the three listeners receive, in this order: the auth
    listener [null] and the loading listener [true] at subscription; then,
    when the verification succeeds, the auth listener the user and the
    loading listener [false]; when it fails, the error listener the
    message and the loading listener [false]. (Listeners that do not
    throw.) *)
Theorem example_page_trace throws backend resolve_url config b a l e t :
  (∀ cb args, throws cb args = false) →
  or_else (searchParams_get "token" (search (location b))) None = None →
  or_else (searchParams_get "code" (search (location b))) None = None →
  stored_token b = Some t →
  let script := [VanillaAuthClient.OnAuthStateChanged a;
                 VanillaAuthClient.OnLoadingStateChanged l;
                 VanillaAuthClient.OnError e] in
  let w := (VanillaAuthClient.construct throws backend resolve_url config b script).2 in
  VanillaAuthClient.calls w
  = [(a, [VNull]); (l, [VBool true])]
    ++ match verify_token backend
               (ApiClient.prepare
                  (ApiClient.createApiClient
                     (ApiClient.mkConfig (VanillaAuthClient.authBackendUrl config)))
                  "/verify-token" NoBody ∅ b) with
       | Ok u => [(a, [VUser u]); (l, [VBool false])]
       | Failed _ =>
           [(e, [VString "Authentication failed. Please log in again."]);
            (l, [VBool false])]
       end.
Proof.
  intros H Htoken Hcode Hstored. unfold stored_token in Hstored. cbv zeta.
  unfold VanillaAuthClient.construct. unfold_vanilla. simpl.
  rewrite Htoken, Hcode. simpl. rewrite Hstored. simpl.
  unfold VanillaAuthClient.onAuthStateChanged, VanillaAuthClient.onLoadingStateChanged,
    VanillaAuthClient.onError, VanillaAuthClient.call, VanillaAuthClient.on, bind, gets, ret.
  simpl. rewrite !H. simpl.
  destruct (verify_token _ _); simpl; emit_silently H; vm_compute; reflexivity.
Qed.

Lemma example_page_trace_witness :
  let b := page [] (Some "tok") in
  let script := [VanillaAuthClient.OnAuthStateChanged 1;
                 VanillaAuthClient.OnLoadingStateChanged 2;
                 VanillaAuthClient.OnError 3] in
  (∀ cb args, quiet cb args = false)
  ∧ or_else (searchParams_get "token" (search (location b))) None = None
  ∧ or_else (searchParams_get "code" (search (location b))) None = None
  ∧ stored_token b = Some "tok"
  ∧ VanillaAuthClient.calls
      (VanillaAuthClient.construct quiet accepting sample_resolver vanilla_config b script).2
    = [(1, [VNull]); (2, [VBool true])] ++ [(1, [VUser alice]); (2, [VBool false])].
Proof.
  cbv zeta.
  assert (H1 : ∀ cb args, quiet cb args = false) by reflexivity.
  assert (H2 : or_else (searchParams_get "token"
                 (search (location (page [] (Some "tok"))))) None = None)
    by reflexivity.
  assert (H3 : or_else (searchParams_get "code"
                 (search (location (page [] (Some "tok"))))) None = None)
    by reflexivity.
  assert (H4 : stored_token (page [] (Some "tok")) = Some "tok")
    by (vm_compute; reflexivity).
  split; [exact H1|]. split; [exact H2|]. split; [exact H3|]. split; [exact H4|].
  exact (example_page_trace quiet accepting sample_resolver vanilla_config _ 1 2 3 "tok" H1 H2 H3 H4).
Defined.

Ltac finish_invariant :=
  autorewrite with browser; simpl; autorewrite with browser;
  repeat match goal with
         | |- _ ∧ _ => split
         | |- is_Some (Some _) => by eexists
         | |- _ ∨ _ => by eauto
         | |- ∀ key, key ≠ _ → _ =>
             let Hkey := fresh "Hkey" in
             intros key Hkey; autorewrite with browser;
             rewrite ?getItem_removeItem_ne, ?getItem_setItem_ne by done;
             autorewrite with browser;
             rewrite ?getItem_removeItem_ne, ?getItem_setItem_ne by done
         | |- _ = _ => done
         end.


(** X15. Signing in and out again. From a URL with a non-empty [token]
    parameter [T], with a backend that accepts the verification and the
    logout call, and a browser that accepts the URL given to
    [replaceState] (the page's pathname in the vanilla client, the
    login-redirect path in the React provider): after initialisation and
    then [logout()], [user] is
    [null], the token store is empty, [isLoading] is false and [error] is
    [null]; two requests were sent, the verification and the logout, and
    the logout request carried [T]. (Vanilla: listeners that do not
    throw.) *)
Theorem sign_in_then_logout throws backend resolve_url config props b script T u
    target l1 :
  (∀ cb args, throws cb args = false) →
  or_else (searchParams_get "token" (search (location b))) None = Some T →
  (∀ request, verify_token backend request = Ok u) →
  (∀ request, auth_logout backend request = Ok tt) →
  resolve_url (pathname (location b)) (location b) = Some target →
  resolve_url (AuthProvider.loginPath props) (location b) = Some l1 →
  let client url := ApiClient.createApiClient (ApiClient.mkConfig url) in
  let w1 := (VanillaAuthClient.construct throws backend resolve_url config b script).2 in
  let w2 := (VanillaAuthClient.logout throws backend w1).2 in
  let r1 := (AuthProvider.mount backend resolve_url props b).2 in
  let r2 := (AuthProvider.logout backend r1).2 in
  let out := ApiClient.prepare (client (VanillaAuthClient.authBackendUrl config))
               "/auth/logout" NoBody ∅ (VanillaAuthClient.browser w1) in
  let out' := ApiClient.prepare (client (AuthProvider.authBackendUrl props))
                "/auth/logout" NoBody ∅ (AuthProvider.browser r1) in
  (VanillaAuthClient.user (VanillaAuthClient.this w1) = Some u
   ∧ VanillaAuthClient.user (VanillaAuthClient.this w2) = None
   ∧ getItem StorageKeys.TOKEN (VanillaAuthClient.browser w2) = None
   ∧ VanillaAuthClient.isLoading (VanillaAuthClient.this w2) = false
   ∧ VanillaAuthClient.error (VanillaAuthClient.this w2) = None
   ∧ requests (VanillaAuthClient.browser w2)
     = requests b
       ++ [ApiClient.prepare (client (VanillaAuthClient.authBackendUrl config))
             "/verify-token" NoBody ∅ (setItem StorageKeys.TOKEN T b); out]
   ∧ headers out !! "Authorization" = Some ("Bearer " +:+ T))
  ∧ (AuthProvider.user (AuthProvider.state r1) = Some u
     ∧ AuthProvider.user (AuthProvider.state r2) = None
     ∧ getItem StorageKeys.TOKEN (AuthProvider.browser r2) = None
     ∧ AuthProvider.isLoading (AuthProvider.state r2) = false
     ∧ AuthProvider.error (AuthProvider.state r2) = None
     ∧ requests (AuthProvider.browser r2)
       = requests b
         ++ [ApiClient.prepare (client (AuthProvider.authBackendUrl props))
               "/verify-token" NoBody ∅ (setItem StorageKeys.TOKEN T b); out']
     ∧ headers out' !! "Authorization" = Some ("Bearer " +:+ T)).
Proof.
  intros H Htoken Hverify Hlogout Htarget Hl1.
  apply or_else_Some in Htoken as Htruthy. destruct Htruthy as [_ Htruthy].
  cbv zeta. split.
  - unfold VanillaAuthClient.construct. unfold_vanilla. simpl.
    rewrite Htoken. simpl. emit_silently H. rewrite Hverify. simpl.
    emit_silently H. autorewrite with browser. simpl. autorewrite with browser.
    rewrite Htarget. simpl.
    emit_silently H. autorewrite with browser. simpl. emit_silently H.
    rewrite Hlogout. simpl. emit_silently H.
    autorewrite with browser. simpl. autorewrite with browser.
    repeat split; try done.
    + by rewrite <- app_assoc.
    + apply prepare_bearer; [by autorewrite with browser | done].
  - unfold AuthProvider.mount. unfold_react. simpl.
    rewrite Htoken. simpl. autorewrite with browser. rewrite Hl1. simpl.
    rewrite Hverify. simpl. rewrite Hlogout. simpl.
    autorewrite with browser.
    repeat split; try done.
    + by rewrite <- app_assoc.
    + apply prepare_bearer; [by autorewrite with browser | done].
Qed.

Lemma sign_in_then_logout_witness :
  let b := page [("token", "T")] None in
  let w1 := (VanillaAuthClient.construct quiet accepting sample_resolver vanilla_config b []).2 in
  let r1 := (AuthProvider.mount accepting sample_resolver react_props b).2 in
  (∀ cb args, quiet cb args = false)
  ∧ or_else (searchParams_get "token" (search (location b))) None = Some "T"
  ∧ (∀ request, verify_token accepting request = Ok alice)
  ∧ (∀ request, auth_logout accepting request = Ok tt)
  ∧ sample_resolver (pathname (location b)) (location b)
    = Some (mkLocation "https://app.example" "/app" [])
  ∧ sample_resolver (AuthProvider.loginPath react_props) (location b)
    = Some (mkLocation "https://app.example" "/" [])
  ∧ getItem StorageKeys.TOKEN
      (VanillaAuthClient.browser (VanillaAuthClient.logout quiet accepting w1).2) = None
  ∧ getItem StorageKeys.TOKEN
      (AuthProvider.browser (AuthProvider.logout accepting r1).2) = None.
Proof.
  cbv zeta.
  assert (H1 : ∀ cb args, quiet cb args = false) by reflexivity.
  assert (H2 : or_else (searchParams_get "token"
                 (search (location (page [("token", "T")] None)))) None = Some "T")
    by reflexivity.
  assert (H3 : ∀ request, verify_token accepting request = Ok alice) by reflexivity.
  assert (H4 : ∀ request, auth_logout accepting request = Ok tt) by reflexivity.
  assert (H5 : sample_resolver (pathname (location (page [("token", "T")] None)))
                 (location (page [("token", "T")] None))
               = Some (mkLocation "https://app.example" "/app" [])) by reflexivity.
  assert (H6 : sample_resolver (AuthProvider.loginPath react_props)
                 (location (page [("token", "T")] None))
               = Some (mkLocation "https://app.example" "/" [])) by reflexivity.
  pose proof (sign_in_then_logout quiet accepting sample_resolver vanilla_config
                react_props _ [] "T" alice _ _ H1 H2 H3 H4 H5 H6)
    as [(_&_&Hv&_) (_&_&Hr&_)].
  auto 10.
Defined.

(** X16. A run of the provider's auth effect against a backend that
    rejects verification and exchange never clears [user]: a user set by
    an earlier run stays in the state, while the token store ends without
    a token and [isLoading] false. *)
Theorem failed_effect_keeps_user backend resolve_url props (r : AuthProvider.World) api status :
  AuthProvider.apiClient (AuthProvider.state r) = Some api →
  (∀ request, verify_token backend request = Failed status) →
  (∀ request, auth_callback backend request = Failed status) →
  let r' := (AuthProvider.effect_auth backend resolve_url props r).2 in
  AuthProvider.user (AuthProvider.state r') = AuthProvider.user (AuthProvider.state r)
  ∧ stored_token (AuthProvider.browser r') = None
  ∧ AuthProvider.isLoading (AuthProvider.state r') = false.
Proof.
  intros Hapi Hverify Hcallback. cbv zeta. unfold_react. rewrite Hapi. simpl.
  destruct (or_else (searchParams_get "token" _) None) as [T|]; simpl.
  - repeat first
      [ rewrite Hverify; simpl
      | progress (autorewrite with browser; simpl)
      | match goal with
        | |- context [resolve_url ?u ?l] => destruct (resolve_url u l); simpl
        end ];
      unfold stored_token; by autorewrite with browser.
  - destruct (or_else (searchParams_get "code" _) None) as [C|]; simpl.
    + repeat first
        [ rewrite Hcallback; simpl
        | progress (autorewrite with browser; simpl)
        | match goal with
          | |- context [resolve_url ?u ?l] => destruct (resolve_url u l); simpl
          end ];
        unfold stored_token; by autorewrite with browser.
    + destruct (or_else (getItem _ _) None) eqn:E; simpl.
      * rewrite Hverify. simpl. unfold stored_token. by autorewrite with browser.
      * done.
Qed.

Lemma failed_effect_keeps_user_witness :
  let r' := (AuthProvider.effect_auth rejecting sample_resolver react_props signed_in_app).2 in
  is_Some (AuthProvider.apiClient (AuthProvider.state signed_in_app))
  ∧ (∀ request, verify_token rejecting request = Failed (Some 401))
  ∧ AuthProvider.user (AuthProvider.state r') = Some alice
  ∧ stored_token (AuthProvider.browser r') = None.
Proof.
  cbv zeta.
  pose proof (failed_effect_keeps_user rejecting sample_resolver react_props signed_in_app
                _ (Some 401) eq_refl (λ _, eq_refl) (λ _, eq_refl)) as (Hu & Hs & _).
  split; [by eexists|]. split; [reflexivity|]. split; [exact Hu | exact Hs].
Defined.


(** X17. A run of the provider's auth effect that finds a stored token and
    no callback parameter does not reset [error]: when the verification
    succeeds, [user] is set and [error] keeps the value it had, so both can
    be set at once. *)
Theorem verified_stored_token_keeps_error backend resolve_url props (r : AuthProvider.World)
    api t u :
  AuthProvider.apiClient (AuthProvider.state r) = Some api →
  or_else (searchParams_get "token"
             (search (location (AuthProvider.browser r)))) None = None →
  or_else (searchParams_get "code"
             (search (location (AuthProvider.browser r)))) None = None →
  stored_token (AuthProvider.browser r) = Some t →
  (∀ request, verify_token backend request = Ok u) →
  let r' := (AuthProvider.effect_auth backend resolve_url props r).2 in
  AuthProvider.user (AuthProvider.state r') = Some u
  ∧ AuthProvider.error (AuthProvider.state r') = AuthProvider.error (AuthProvider.state r)
  ∧ AuthProvider.isLoading (AuthProvider.state r') = false
  ∧ getItem StorageKeys.TOKEN (AuthProvider.browser r')
    = getItem StorageKeys.TOKEN (AuthProvider.browser r).
Proof.
  intros Hapi Htoken Hcode Hstored Hok. unfold stored_token in Hstored.
  cbv zeta. unfold_react. rewrite Hapi. simpl.
  rewrite Htoken, Hcode. simpl. rewrite Hstored. simpl. rewrite Hok. simpl.
  by autorewrite with browser.
Qed.

Lemma verified_stored_token_keeps_error_witness :
  let r := AuthProvider.mkWorld (page [] (Some "tok"))
             (AuthProvider.mkState None false
                (Some "Logout failed. Please try again.")
                (Some (ApiClient.createApiClient (ApiClient.mkConfig "https://auth.example")))) in
  let r' := (AuthProvider.effect_auth accepting sample_resolver react_props r).2 in
  stored_token (AuthProvider.browser r) = Some "tok"
  ∧ AuthProvider.user (AuthProvider.state r') = Some alice
  ∧ AuthProvider.error (AuthProvider.state r') = Some "Logout failed. Please try again.".
Proof.
  cbv zeta.
  assert (H3 : stored_token (page [] (Some "tok")) = Some "tok")
    by (vm_compute; reflexivity).
  pose proof (verified_stored_token_keeps_error accepting sample_resolver react_props
                (AuthProvider.mkWorld (page [] (Some "tok"))
                   (AuthProvider.mkState None false
                      (Some "Logout failed. Please try again.")
                      (Some (ApiClient.createApiClient
                               (ApiClient.mkConfig "https://auth.example")))))
                _ "tok" alice eq_refl eq_refl eq_refl H3 (λ _, eq_refl))
    as (Hu & He & _).
  split; [exact H3|]. split; [exact Hu | exact He].
Defined.
